(** * IMS backend: dashboard KPIs and document filtering

    A shallow embedding of [ims_backend.py]: the two endpoints that carry the
    logic of the repository, [get_dashboard_summary] and [filter_documents],
    as functions of the snapshot returned by [load_data] (and, for the filter,
    of the JSON body of the request).  Python exceptions are values of an
    error monad; Python dicts that are iterated are association lists in
    insertion order. *)

From Stdlib Require Import List String Ascii ZArith Lia Bool Arith.
From Stdlib Require Import Permutation Sorted OrdersEx RelationClasses.
Import ListNotations.

Local Open Scope string_scope.
Local Open Scope list_scope.
Local Open Scope Z_scope.

(** ** Python prelude *)

(** The exceptions the two endpoints can raise. *)
Inductive exn : Type :=
| KeyError (key : string)
| ZeroDivisionError
| OverflowError
| AttributeError.

Inductive result (A : Type) : Type :=
| Ok (a : A)
| Raise (e : exn).

Arguments Ok {A} a.
Arguments Raise {A} e.

Definition bind {A B : Type} (m : result A) (k : A -> result B) : result B :=
  match m with
  | Ok a => k a
  | Raise e => Raise e
  end.

Notation "x <- m ;; k" := (bind m (fun x => k))
  (at level 61, m at next level, right associativity).
Notation "' pat <- m ;; k" := (bind m (fun x => match x with pat => k end))
  (at level 61, pat pattern, m at next level, right associativity).

(** A list comprehension whose element expression may raise: elements are
    evaluated left to right and the first exception escapes. *)
Fixpoint comprehension {A B : Type} (f : A -> result B) (l : list A)
  : result (list B) :=
  match l with
  | [] => Ok []
  | a :: l' => b <- f a ;; bs <- comprehension f l' ;; Ok (b :: bs)
  end.

(** A dict with string keys, in insertion order. *)
Definition dict (A : Type) : Type := list (string * A).

Definition values {A : Type} (d : dict A) : list A := map snd d.
Definition keys {A : Type} (d : dict A) : list string := map fst d.

(** [d.get(k)] without a default is [None] when the key is missing. *)
Fixpoint dict_get {A : Type} (d : dict A) (k : string) : option A :=
  match d with
  | [] => None
  | (k', v) :: d' => if String.eqb k' k then Some v else dict_get d' k
  end.

(** [d.get(k, dflt)]. *)
Definition dict_get_default {A : Type} (d : dict A) (k : string) (dflt : A) : A :=
  match dict_get d k with
  | Some v => v
  | None => dflt
  end.

(** [d[k]]: a missing key raises [KeyError]. *)
Definition dict_getitem {A : Type} (d : dict A) (k : string) : result A :=
  match dict_get d k with
  | Some v => Ok v
  | None => Raise (KeyError k)
  end.

(** [d[k] = v]: an existing key keeps its position, a new key goes last. *)
Fixpoint dict_set {A : Type} (d : dict A) (k : string) (v : A) : dict A :=
  match d with
  | [] => [(k, v)]
  | (k', v') :: d' =>
      if String.eqb k' k then (k, v) :: d' else (k', v') :: dict_set d' k v
  end.

(** [sum(iterable)]: starts at 0 and adds from the left. *)
Definition py_sum (l : list Z) : Z := fold_left Z.add l 0.

(** Python compares [str] by code point; on UTF-8 bytes this is the
    lexicographic order of the bytes. *)
Definition str_ltb (a b : string) : bool :=
  match String_as_OT.compare a b with
  | Lt => true
  | _ => false
  end.

(** [l.sort(key=key, reverse=True)]: descending on the key and stable, so
    elements with equal keys keep their original order. *)
Fixpoint insert_desc {A : Type} (key : A -> string) (x : A) (l : list A) : list A :=
  match l with
  | [] => [x]
  | y :: l' =>
      if str_ltb (key x) (key y) then y :: insert_desc key x l' else x :: y :: l'
  end.

Definition sort_reverse {A : Type} (key : A -> string) (l : list A) : list A :=
  fold_right (insert_desc key) [] l.

(** ** JSON values, as [json.load] and [request.get_json] produce them *)

Set Warnings "-register-all".

(** A number carries its value as a fraction; the endpoints only ever test
    it for truth and for being a list.  An object is the dict the parser
    built, read with [dict_get]. *)
Inductive json : Type :=
| JNull
| JBool (b : bool)
| JNum (num : Z) (den : positive)
| JStr (s : string)
| JList (l : list json)
| JObj (o : list (string * json)).

(** Truth value of a Python object. *)
Definition truthy (j : json) : bool :=
  match j with
  | JNull => false
  | JBool b => b
  | JNum n _ => negb (n =? 0)
  | JStr s => negb (String.eqb s "")
  | JList l => match l with [] => false | _ => true end
  | JObj o => match o with [] => false | _ => true end
  end.

(** [isinstance(j, list)]. *)
Definition isinstance_list (j : json) : bool :=
  match j with
  | JList _ => true
  | _ => false
  end.

(** [filters.get(key)]: [None] for a missing key of a dict; any other JSON
    value has no attribute [get]. *)
Definition json_get (filters : json) (key : string) : result json :=
  match filters with
  | JObj o => Ok (dict_get_default o key JNull)
  | _ => Raise AttributeError
  end.

(** [s == j] for a [str] on the left. *)
Definition str_eq_json (s : string) (j : json) : bool :=
  match j with
  | JStr t => String.eqb s t
  | _ => false
  end.

(** [o == j] for the result of [doc.get(field)], a [str] or [None]. *)
Definition opt_str_eq_json (o : option string) (j : json) : bool :=
  match o, j with
  | None, JNull => true
  | Some s, JStr t => String.eqb s t
  | _, _ => false
  end.

(** [s in j] and [o in j], for [j] a list. *)
Definition str_in (s : string) (j : json) : bool :=
  match j with
  | JList l => existsb (str_eq_json s) l
  | _ => false
  end.

Definition opt_str_in (o : option string) (j : json) : bool :=
  match j with
  | JList l => existsb (opt_str_eq_json o) l
  | _ => false
  end.

(** ** Data model *)

Record Product : Type := {
  product_id : string;
  category : string;
  product_name : string;
  location_id : string;
  stock_level : Z;
  reorder_point : Z
}.

Record Location : Type := {
  location_key : string;
  name : string;
  manager : string
}.

Record Line : Type := {
  line_product_id : string;
  qty : Z;
  line_category : string
}.

(** [source_location], [target_location] and [category_list] are read with
    [doc.get], so a document may lack them. *)
Record Document : Type := {
  id : string;
  type : string;
  status : string;
  created_by : string;
  created_at : string;
  lines : list Line;
  source_location : option string;
  target_location : option string;
  category_list : option (list string)
}.

(** The snapshot [load_data] returns. *)
Record Data : Type := {
  products : dict Product;
  documents : dict Document;
  locations : dict Location
}.

Definition LOW_STOCK_THRESHOLD : Z := 20.

(** ** [get_dashboard_summary] *)

(** One entry of [location_chart_data]. *)
Record LocationEntry : Type := {
  location : string;
  stock : Z
}.

(** [round(count / total_stock * 100, 1)] is a binary64 value.  Its digits
    are not modelled: the entry keeps the two integers the expression was
    evaluated on.  There [total] is never 0 and the quotient is in the range
    of a float, since the division raises first. *)
Inductive percentage : Type :=
| Round1 (count total : Z).

(** One entry of [category_chart_data]. *)
Record CategoryEntry : Type := {
  entry_name : string;
  value : Z;
  percent : percentage
}.

(** The JSON object the endpoint answers with. *)
Record Summary : Type := {
  s_total_products_in_stock : Z;
  s_low_stock_items : nat;
  s_out_of_stock_items : nat;
  s_pending_receipts : nat;
  s_pending_deliveries : nat;
  s_transfers_scheduled : nat;
  s_adjustments_pending : nat;
  s_locations : dict Location;
  s_location_chart_data : list LocationEntry;
  s_category_chart_data : list CategoryEntry
}.

(** True division of two [int]s rounds the exact quotient to the nearest
    float, ties to even.  The largest float is [2^1024 - 2^971]; a quotient
    of magnitude [2^1024 - 2^970] or more rounds to [2^1024], which is no
    float. *)
Definition float_overflow_bound : Z := 2 ^ 1024 - 2 ^ 970.

(** [a / b] for [b <> 0] raises [OverflowError]: "integer division result
    too large for a float". *)
Definition truediv_overflows (a b : Z) : bool :=
  float_overflow_bound * Z.abs b <=? Z.abs a.

(** [count / total_stock * 100] rounded to one decimal.  True division
    raises on a divisor of 0, and else on a quotient too large for a float;
    the product by 100 and [round(_, 1)] raise nothing (they give [inf] on
    overflow). *)
Definition percent_of (count total_stock : Z) : result percentage :=
  if total_stock =? 0 then Raise ZeroDivisionError
  else if truediv_overflows count total_stock then Raise OverflowError
  else Ok (Round1 count total_stock).

Definition total_products_in_stock (products : list Product) : Z :=
  py_sum (map stock_level products).

Definition is_low_stock (p : Product) : bool :=
  (stock_level p >? 0) && (stock_level p <=? LOW_STOCK_THRESHOLD).

Definition is_out_of_stock (p : Product) : bool :=
  stock_level p =? 0.

Definition low_stock_items (products : list Product) : nat :=
  List.length (filter is_low_stock products).

Definition out_of_stock_items (products : list Product) : nat :=
  List.length (filter is_out_of_stock products).

(** [x in [a, b, ...]] for strings. *)
Definition in_strings (x : string) (l : list string) : bool :=
  existsb (String.eqb x) l.

Definition is_pending_receipt (d : Document) : bool :=
  String.eqb (type d) "Receipt" && in_strings (status d) ["Waiting"; "Ready"].

Definition is_pending_delivery (d : Document) : bool :=
  String.eqb (type d) "Delivery" && in_strings (status d) ["Waiting"; "Ready"].

Definition is_transfer_scheduled (d : Document) : bool :=
  String.eqb (type d) "Internal" && in_strings (status d) ["Waiting"; "Ready"].

Definition is_adjustment_pending (d : Document) : bool :=
  String.eqb (type d) "Adjustment"
  && in_strings (status d) ["Draft"; "Waiting"; "Ready"].

Definition pending_receipts (docs : list Document) : nat :=
  List.length (filter is_pending_receipt docs).

Definition pending_deliveries (docs : list Document) : nat :=
  List.length (filter is_pending_delivery docs).

Definition transfers_scheduled (docs : list Document) : nat :=
  List.length (filter is_transfer_scheduled docs).

Definition adjustments_pending (docs : list Document) : nat :=
  List.length (filter is_adjustment_pending docs).

(** The loop [for p in products: acc[key] = acc.get(key, 0) + p.stock_level],
    run from the dict [acc]. *)
Definition add_stock (key : Product -> string) (acc : dict Z) (p : Product)
  : dict Z :=
  dict_set acc (key p) (dict_get_default acc (key p) 0 + stock_level p).

Definition location_stock (products : list Product) : dict Z :=
  fold_left (add_stock location_id) products [].

Definition category_counts (products : list Product) : dict Z :=
  fold_left (add_stock category) products [].

(** The element expression of [location_chart_data], on one item of
    [location_stock.items()]. *)
Definition location_entry (locs : dict Location) (item : string * Z)
  : result LocationEntry :=
  let '(loc, stock) := item in
  l <- dict_getitem locs loc ;;
  Ok {| location := name l; stock := stock |}.

Definition location_chart_data (locs : dict Location) (products : list Product)
  : result (list LocationEntry) :=
  comprehension (location_entry locs) (location_stock products).

(** The element expression of [category_chart_data], on one item of
    [category_counts.items()]. *)
Definition category_entry (total_stock : Z) (item : string * Z)
  : result CategoryEntry :=
  let '(cat, count) := item in
  pct <- percent_of count total_stock ;;
  Ok {| entry_name := cat; value := count; percent := pct |}.

Definition category_chart_data (products : list Product)
  : result (list CategoryEntry) :=
  let total_stock := total_products_in_stock products in
  comprehension (category_entry total_stock) (category_counts products).

Definition get_dashboard_summary (data : Data) : result Summary :=
  let products := values (products data) in
  let docs := values (documents data) in
  location_chart <- location_chart_data (locations data) products ;;
  category_chart <- category_chart_data products ;;
  Ok {| s_total_products_in_stock := total_products_in_stock products;
        s_low_stock_items := low_stock_items products;
        s_out_of_stock_items := out_of_stock_items products;
        s_pending_receipts := pending_receipts docs;
        s_pending_deliveries := pending_deliveries docs;
        s_transfers_scheduled := transfers_scheduled docs;
        s_adjustments_pending := adjustments_pending docs;
        s_locations := locations data;
        s_location_chart_data := location_chart;
        s_category_chart_data := category_chart |}.

(** ** [filter_documents] *)

(** The JSON object the endpoint answers with. *)
Record Response : Type := {
  count : nat;
  response_documents : list Document
}.

(** The guard [if v and isinstance(v, list)] of each of the four filters. *)
Definition filter_active (v : json) : bool :=
  truthy v && isinstance_list v.

Definition filter_by_type (doc_types : json) (docs : list Document)
  : list Document :=
  if filter_active doc_types
  then filter (fun doc => str_in (type doc) doc_types) docs
  else docs.

Definition filter_by_status (statuses : json) (docs : list Document)
  : list Document :=
  if filter_active statuses
  then filter (fun doc => str_in (status doc) statuses) docs
  else docs.

Definition filter_by_location (locs : json) (docs : list Document)
  : list Document :=
  if filter_active locs
  then filter (fun doc => opt_str_in (source_location doc) locs
                          || opt_str_in (target_location doc) locs) docs
  else docs.

(** [doc.get('category_list', [])]. *)
Definition category_list_or_empty (doc : Document) : list string :=
  match category_list doc with
  | Some l => l
  | None => []
  end.

Definition filter_by_category (categories : json) (docs : list Document)
  : list Document :=
  if filter_active categories
  then filter (fun doc => existsb (fun c => str_in c categories)
                                  (category_list_or_empty doc)) docs
  else docs.

(** The candidate list after the four passes, in the order of the source:
    type, status, location, category. *)
Definition filtered_docs (all_docs : list Document) (filters : json)
  : result (list Document) :=
  doc_types <- json_get filters "document_type" ;;
  let docs1 := filter_by_type doc_types all_docs in
  statuses <- json_get filters "status" ;;
  let docs2 := filter_by_status statuses docs1 in
  locs <- json_get filters "location" ;;
  let docs3 := filter_by_location locs docs2 in
  categories <- json_get filters "category" ;;
  Ok (filter_by_category categories docs3).

Definition filter_documents (data : Data) (filters : json) : result Response :=
  let all_docs := values (documents data) in
  matched <- filtered_docs all_docs filters ;;
  let sorted := sort_reverse created_at matched in
  Ok {| count := List.length sorted; response_documents := firstn 15 sorted |}.

(** ** Sample data *)

(** The data [load_data] seeds when the file is missing; each document takes
    its own [datetime.now().isoformat()]. *)
Definition default_data (t1 t2 t3 t4 : string) : Data := {|
  products := [
    ("P1A2B3C4", {| product_id := "P1A2B3C4"; category := "Electronics";
                    product_name := "Laptop Model X"; location_id := "W001";
                    stock_level := 120; reorder_point := 30 |});
    ("P5D6E7F8", {| product_id := "P5D6E7F8"; category := "Peripherals";
                    product_name := "Wireless Mouse Z"; location_id := "W002";
                    stock_level := 35; reorder_point := 50 |});
    ("P9G0H1I2", {| product_id := "P9G0H1I2"; category := "Components";
                    product_name := "Memory Module 16GB"; location_id := "W001";
                    stock_level := 1000; reorder_point := 100 |});
    ("P00A0B0C", {| product_id := "P00A0B0C"; category := "Apparel";
                    product_name := "Safety Vest"; location_id := "W002";
                    stock_level := 10; reorder_point := 50 |});
    ("P0D0E0F0", {| product_id := "P0D0E0F0"; category := "Home Goods";
                    product_name := "Cleaning Wipes"; location_id := "W001";
                    stock_level := 5; reorder_point := 10 |}) ];
  documents := [
    ("D001", {| id := "D001"; type := "Delivery"; status := "Ready";
                created_by := "SM001"; created_at := t1;
                lines := [ {| line_product_id := "P1A2B3C4"; qty := 5;
                              line_category := "Electronics" |} ];
                source_location := Some "W001"; target_location := None;
                category_list := Some ["Electronics"] |});
    ("R002", {| id := "R002"; type := "Receipt"; status := "Waiting";
                created_by := "InvManager"; created_at := t2;
                lines := [ {| line_product_id := "P9G0H1I2"; qty := 200;
                              line_category := "Components" |} ];
                source_location := None; target_location := Some "W001";
                category_list := Some ["Components"] |});
    ("T003", {| id := "T003"; type := "Internal"; status := "Draft";
                created_by := "WH002"; created_at := t3;
                lines := [ {| line_product_id := "P5D6E7F8"; qty := 20;
                              line_category := "Peripherals" |} ];
                source_location := Some "W002"; target_location := Some "W001";
                category_list := Some ["Peripherals"] |});
    ("A004", {| id := "A004"; type := "Adjustment"; status := "Done";
                created_by := "StockMaster"; created_at := t4;
                lines := [ {| line_product_id := "P00A0B0C"; qty := -10;
                              line_category := "Apparel" |} ];
                source_location := None; target_location := None;
                category_list := Some ["Apparel"] |}) ];
  locations := [
    ("W001", {| location_key := "W001"; name := "Main Warehouse";
                manager := "Alice" |});
    ("W002", {| location_key := "W002"; name := "Overflow Storage";
                manager := "Bob" |}) ]
|}.

Definition sample_data : Data :=
  default_data "2025-01-01T10:00:00" "2025-01-01T10:00:01"
               "2025-01-01T10:00:02" "2025-01-01T10:00:03".

(** A product of the given category, place and stock. *)
Definition product_at (pid cat loc : string) (n : Z) : Product :=
  {| product_id := pid; category := cat; product_name := pid;
     location_id := loc; stock_level := n; reorder_point := 0 |}.

(** The seeded locations and documents with a single product that is out of
    stock. *)
Definition sold_out_data : Data :=
  {| products := [("P1", product_at "P1" "Apparel" "W001" 0)];
     documents := documents sample_data;
     locations := locations sample_data |}.

(** ** Properties the statements are written with *)

(** The sum of the stock levels, written on the list. *)
Fixpoint sum_stock (ps : list Product) : Z :=
  match ps with
  | [] => 0
  | p :: ps' => stock_level p + sum_stock ps'
  end.

Fixpoint sum_values (es : list CategoryEntry) : Z :=
  match es with
  | [] => 0
  | e :: es' => value e + sum_values es'
  end.

(** A product is counted by a counter when its presence in the collection
    adds one to the count, wherever it stands, and is not counted when it
    leaves the count as it is. *)
Definition counted_in (counter : list Product -> nat) (p : Product) : Prop :=
  forall before after : list Product,
    counter (before ++ p :: after) = S (counter (before ++ after)).

Definition not_counted_in (counter : list Product -> nat) (p : Product) : Prop :=
  forall before after : list Product,
    counter (before ++ p :: after) = counter (before ++ after).

Definition exactly_one (A B C : Prop) : Prop :=
  (A /\ ~ B /\ ~ C) \/ (~ A /\ B /\ ~ C) \/ (~ A /\ ~ B /\ C).

(** The sum of the values of a dict of quantities. *)
Definition dict_total (d : dict Z) : Z := fold_right Z.add 0 (values d).

(** No share of the category chart is too large for a float. *)
Definition shares_in_range (ps : list Product) : Prop :=
  forall c n, In (c, n) (category_counts ps) ->
              truediv_overflows n (total_products_in_stock ps) = false.

(** Every location id used by a product is a key of the locations. *)
Definition locations_cover (data : Data) : Prop :=
  forall p, In p (values (products data)) ->
            dict_get (locations data) (location_id p) <> None.

(** A dict without the key [k]. *)
Definition dict_del {A : Type} (d : dict A) (k : string) : dict A :=
  filter (fun kv => negb (String.eqb (fst kv) k)) d.

(** The value [doc.get(field)] returns, as a JSON value. *)
Definition json_of_field (o : option string) : json :=
  match o with
  | Some s => JStr s
  | None => JNull
  end.

(** What each recognised field asks of a document, once it holds the list
    [l]. *)
Definition satisfies_type (l : list json) (d : Document) : Prop :=
  In (JStr (type d)) l.

Definition satisfies_status (l : list json) (d : Document) : Prop :=
  In (JStr (status d)) l.

Definition satisfies_location (l : list json) (d : Document) : Prop :=
  In (json_of_field (source_location d)) l
  \/ In (json_of_field (target_location d)) l.

Definition satisfies_category (l : list json) (d : Document) : Prop :=
  exists c, In c (category_list_or_empty d) /\ In (JStr c) l.

(** A field is present, and constrains, when it holds a non-empty list. *)
Definition constrains (filters : dict json) (key : string) (l : list json)
  : Prop :=
  dict_get filters key = Some (JList l) /\ l <> [].

(** A field that is absent, null, empty, or not a list. *)
Definition unconstrained (filters : dict json) (key : string) : Prop :=
  dict_get filters key = None
  \/ dict_get filters key = Some JNull
  \/ (exists v, dict_get filters key = Some v /\ truthy v = false)
  \/ (exists v, dict_get filters key = Some v /\ isinstance_list v = false).

(** The conjunction of the present fields. *)
Definition survives (filters : dict json) (d : Document) : Prop :=
  (forall l, constrains filters "document_type" l -> satisfies_type l d)
  /\ (forall l, constrains filters "status" l -> satisfies_status l d)
  /\ (forall l, constrains filters "location" l -> satisfies_location l d)
  /\ (forall l, constrains filters "category" l -> satisfies_category l d).

Definition recognised (key : string) : Prop :=
  key = "document_type" \/ key = "status" \/ key = "location"
  \/ key = "category".

(** A document has one of its two location fields, and its value is one of
    the strings of [l]. *)
Definition has_location_in (l : list json) (d : Document) : Prop :=
  exists s, (source_location d = Some s \/ target_location d = Some s)
            /\ In (JStr s) l.

(** The location pass of [filter_documents] on the candidates [docs]. *)
Definition location_pass (filters : dict json) (docs : list Document)
  : list Document :=
  filter_by_location (dict_get_default filters "location" JNull) docs.

(** The reading of the location filter under which a document survives
    exactly when one of the fields it has is in the list. *)
Definition location_filter_by_fields (filters : dict json)
  (docs : list Document) : Prop :=
  forall l, dict_get filters "location" = Some (JList l) -> l <> [] ->
  forall d, In d (location_pass filters docs)
            <-> In d docs /\ has_location_in l d.

(** [a] may stand before [b] in a list that descends on the key: the key of
    [a] is not below the key of [b]. *)
Definition not_before {A : Type} (key : A -> string) (a b : A) : Prop :=
  str_ltb (key a) (key b) = false.

(** Descending on [created_at]: no document is followed by a more recent
    one. *)
Definition sorted_desc (l : list Document) : Prop :=
  StronglySorted (not_before created_at) l.

(** A document of the given type, status and creation time, without
    locations. *)
Definition document_at (i ty st t : string) : Document :=
  {| id := i; type := ty; status := st; created_by := "SM001";
     created_at := t; lines := []; source_location := None;
     target_location := None; category_list := None |}.

(** Twenty receipts, created at ["00"], ["01"], ... in that order. *)
Definition twenty_receipts : dict Document :=
  map (fun t => (t, document_at t "Receipt" "Ready" t))
      ["00"; "01"; "02"; "03"; "04"; "05"; "06"; "07"; "08"; "09";
       "10"; "11"; "12"; "13"; "14"; "15"; "16"; "17"; "18"; "19"].

Definition twenty_data : Data :=
  {| products := []; documents := twenty_receipts; locations := [] |}.

(** [counts P l n]: exactly [n] documents of [l] satisfy [P]. *)
Inductive counts (P : Document -> Prop) : list Document -> nat -> Prop :=
| counts_nil : counts P [] 0
| counts_in (d : Document) (l : list Document) (n : nat) :
    P d -> counts P l n -> counts P (d :: l) (S n)
| counts_out (d : Document) (l : list Document) (n : nat) :
    ~ P d -> counts P l n -> counts P (d :: l) n.

(** A document of type [ty] whose status is one of [sts]. *)
Definition typed_with_status (ty : string) (sts : list string) (d : Document)
  : Prop :=
  type d = ty /\ In (status d) sts.

(** Two products of two categories whose stock levels, one of them negative,
    add up to 1. *)
Definition mixed_sign_data : Data :=
  {| products := [("P1", product_at "P1" "Apparel" "W001" (10 ^ 310));
                  ("P2", product_at "P2" "Components" "W001" (1 - 10 ^ 310))];
     documents := documents sample_data;
     locations := locations sample_data |}.

(** A snapshot without products. *)
Definition no_products (docs : dict Document) (locs : dict Location) : Data :=
  {| products := []; documents := docs; locations := locs |}.

(** The seeded snapshot with one more product, stored at a location that
    does not exist. *)
Definition stray_data : Data :=
  {| products := products sample_data
                 ++ [("P9", product_at "P9" "Apparel" "W999" 7)];
     documents := documents sample_data;
     locations := locations sample_data |}.

(** Whether one pass keeps a document, and whether the four passes do. *)
Definition keeps_type (v : json) (d : Document) : bool :=
  if filter_active v then str_in (type d) v else true.

Definition keeps_status (v : json) (d : Document) : bool :=
  if filter_active v then str_in (status d) v else true.

Definition keeps_location (v : json) (d : Document) : bool :=
  if filter_active v
  then opt_str_in (source_location d) v || opt_str_in (target_location d) v
  else true.

Definition keeps_category (v : json) (d : Document) : bool :=
  if filter_active v
  then existsb (fun c => str_in c v) (category_list_or_empty d)
  else true.

Definition keeps (filters : dict json) (d : Document) : bool :=
  keeps_type (dict_get_default filters "document_type" JNull) d
  && keeps_status (dict_get_default filters "status" JNull) d
  && keeps_location (dict_get_default filters "location" JNull) d
  && keeps_category (dict_get_default filters "category" JNull) d.

(** ** Further notions for the charts and the answer *)

Fixpoint sum_location_stock (es : list LocationEntry) : Z :=
  match es with
  | [] => 0
  | e :: es' => stock e + sum_location_stock es'
  end.

(** The stock of the products whose key (category or location id) is [k]. *)
Definition stock_of (key : Product -> string) (k : string) (ps : list Product)
  : Z :=
  sum_stock (filter (fun p => String.eqb (key p) k) ps).

(** The distinct strings of a list, in the order of their first
    occurrence. *)
Definition add_once (seen : list string) (k : string) : list string :=
  if in_strings k seen then seen else seen ++ [k].

Definition first_occurrences (l : list string) : list string :=
  fold_left add_once l [].

(** A stock level from 0 to the threshold. *)
Definition at_most_threshold (p : Product) : bool :=
  (0 <=? stock_level p) && (stock_level p <=? LOW_STOCK_THRESHOLD).

(** A document that is not done. *)
Definition not_done (d : Document) : bool :=
  negb (String.eqb (status d) "Done").

(** A document counted by one of the four counters of pending documents. *)
Definition is_pending (d : Document) : bool :=
  is_pending_receipt d || is_pending_delivery d
  || is_transfer_scheduled d || is_adjustment_pending d.

(** ** [generate_id] *)

(** [c.upper()] for an ASCII character. *)
Definition upper_ascii (c : ascii) : ascii :=
  let n := nat_of_ascii c in
  if ((97 <=? n) && (n <=? 122))%nat then ascii_of_nat (n - 32) else c.

Fixpoint str_upper (s : string) : string :=
  match s with
  | EmptyString => EmptyString
  | String c s' => String (upper_ascii c) (str_upper s')
  end.

(** [str(u)[:8].upper()], for [uuid4] the string [str(u)] of the UUID that
    [uuid.uuid4()] drew: 36 ASCII characters, hexadecimal digits in lower
    case and four dashes. *)
Definition generate_id (uuid4 : string) : string :=
  str_upper (substring 0 8 uuid4).

(** A hexadecimal digit in lower case, as [str] of a UUID prints them, and in
    upper case. *)
Definition is_lower_hex (c : ascii) : bool :=
  let n := nat_of_ascii c in
  ((48 <=? n) && (n <=? 57) || (97 <=? n) && (n <=? 102))%nat.

Definition is_upper_hex (c : ascii) : bool :=
  let n := nat_of_ascii c in
  ((48 <=? n) && (n <=? 57) || (65 <=? n) && (n <=? 70))%nat.

Fixpoint str_forallb (f : ascii -> bool) (s : string) : bool :=
  match s with
  | EmptyString => true
  | String c s' => f c && str_forallb f s'
  end.

(** * Properties *)

(** ** The Python prelude *)

Section Prelude.

Context {A B : Type}.

Lemma comprehension_ok (f : A -> result B) (l : list A) :
  (forall a, In a l -> exists b, f a = Ok b) ->
  exists bs, comprehension f l = Ok bs /\ Forall2 (fun a b => f a = Ok b) l bs.
Proof.
  induction l as [|a l IH]; intros Hall; simpl.
  - exists []. split; [reflexivity | constructor].
  - destruct (Hall a (or_introl eq_refl)) as [b Hb].
    destruct IH as [bs [Hbs HF]].
    { intros a' Ha'. apply Hall. now right. }
    exists (b :: bs). rewrite Hb, Hbs. simpl. split; [reflexivity|].
    now constructor.
Qed.

Lemma comprehension_inv (f : A -> result B) (l : list A) (bs : list B) :
  comprehension f l = Ok bs -> Forall2 (fun a b => f a = Ok b) l bs.
Proof.
  revert bs. induction l as [|a l IH]; intros bs; simpl.
  - intros [= <-]. constructor.
  - destruct (f a) as [b|e] eqn:Hfa; simpl; [|discriminate].
    destruct (comprehension f l) as [bs'|e] eqn:Hl; simpl; [|discriminate].
    intros [= <-]. constructor; auto.
Qed.

(** A comprehension with a failing element raises, and what it raises is
    the exception of one of its elements. *)
Lemma comprehension_raises (f : A -> result B) (l : list A) :
  (exists a e, In a l /\ f a = Raise e) ->
  exists a e, In a l /\ f a = Raise e /\ comprehension f l = Raise e.
Proof.
  induction l as [|a l IH]; intros (x & e & Hin & Hx).
  - destruct Hin.
  - simpl. destruct (f a) as [b|e'] eqn:Hfa.
    + destruct Hin as [-> | Hin]; [congruence|].
      destruct IH as (y & e'' & Hy & Hfy & Hc); [now exists x, e|].
      exists y, e''. rewrite Hc. simpl. repeat split; auto.
    + exists a, e'. simpl. repeat split; auto.
Qed.

End Prelude.

Lemma fold_left_add (l : list Z) (a : Z) :
  fold_left Z.add l a = a + fold_left Z.add l 0.
Proof.
  revert a. induction l as [|x l IH]; intros a; simpl; [lia|].
  rewrite (IH (a + x)), (IH x). lia.
Qed.

Lemma total_products_in_stock_cons (p : Product) (ps : list Product) :
  total_products_in_stock (p :: ps) = stock_level p + total_products_in_stock ps.
Proof.
  unfold total_products_in_stock, py_sum. simpl. apply fold_left_add.
Qed.

Lemma total_products_in_stock_sum (ps : list Product) :
  total_products_in_stock ps = sum_stock ps.
Proof.
  induction ps as [|p ps IH]; [reflexivity|].
  rewrite total_products_in_stock_cons, IH. reflexivity.
Qed.

(** ** Grouping the stock by a key *)

Section Grouping.

Variable key : Product -> string.

Lemma dict_total_set (d : dict Z) (k : string) (z : Z) :
  dict_total (dict_set d k (dict_get_default d k 0 + z)) = dict_total d + z.
Proof.
  unfold dict_total, dict_get_default.
  induction d as [|[k' v] d IH]; simpl; [lia|].
  destruct (String.eqb k' k); simpl; [lia|].
  rewrite IH. lia.
Qed.

Lemma dict_set_keys (d : dict Z) (k : string) (z : Z) (k0 : string) :
  In k0 (keys (dict_set d k z)) <-> In k0 (keys d) \/ k0 = k.
Proof.
  induction d as [|[k' v] d IH]; simpl.
  - intuition.
  - destruct (String.eqb_spec k' k) as [->|Hne]; simpl.
    + intuition.
    + rewrite IH. intuition.
Qed.

Lemma grouped_total (ps : list Product) (acc : dict Z) :
  dict_total (fold_left (add_stock key) ps acc) = dict_total acc + sum_stock ps.
Proof.
  revert acc. induction ps as [|p ps IH]; intros acc; simpl; [lia|].
  rewrite IH. unfold add_stock. rewrite dict_total_set. lia.
Qed.

Lemma grouped_keys (ps : list Product) (acc : dict Z) (k : string) :
  In k (keys (fold_left (add_stock key) ps acc))
  <-> In k (keys acc) \/ exists p, In p ps /\ key p = k.
Proof.
  revert acc. induction ps as [|p ps IH]; intros acc; simpl.
  - split; [auto | intros [H | (p & [] & _)]; exact H].
  - rewrite IH. unfold add_stock. rewrite dict_set_keys. split.
    + intros [[H | ->] | (q & Hq & Hk)]; eauto.
    + intros [H | (q & [-> | Hq] & Hk)]; eauto.
Qed.

Lemma grouped_nil_iff (ps : list Product) :
  fold_left (add_stock key) ps [] = [] <-> ps = [].
Proof.
  split; [|intros ->; reflexivity].
  destruct ps as [|p ps]; [reflexivity|]. intros H.
  assert (Hk : In (key p) (keys (fold_left (add_stock key) (p :: ps) []))).
  { apply grouped_keys. right. exists p. split; [now left | reflexivity]. }
  rewrite H in Hk. destruct Hk.
Qed.

End Grouping.

Lemma in_keys {A : Type} (d : dict A) (k : string) (v : A) :
  In (k, v) d -> In k (keys d).
Proof. intros H. apply (in_map fst) in H. exact H. Qed.

Lemma keys_in {A : Type} (d : dict A) (k : string) :
  In k (keys d) -> exists v, In (k, v) d.
Proof.
  unfold keys. rewrite in_map_iff. intros ([k' v] & <- & H). now exists v.
Qed.

(** ** The two charts of the dashboard *)

Lemma location_chart_data_defined (locs : dict Location) (ps : list Product) :
  (forall p, In p ps -> dict_get locs (location_id p) <> None) ->
  exists chart, location_chart_data locs ps = Ok chart.
Proof.
  intros Hcover. unfold location_chart_data.
  destruct (comprehension_ok (location_entry locs) (location_stock ps))
    as (bs & Hbs & _); [|exists bs; exact Hbs].
  intros [loc n] Hin. apply in_keys in Hin.
  apply grouped_keys in Hin. destruct Hin as [[] | (p & Hp & <-)].
  specialize (Hcover p Hp). simpl. unfold dict_getitem.
  destruct (dict_get locs (location_id p)) as [l|]; [|congruence].
  simpl. eauto.
Qed.

Lemma location_chart_data_raises (locs : dict Location) (ps : list Product) (p : Product) :
  In p ps -> dict_get locs (location_id p) = None ->
  exists q, In q ps /\ dict_get locs (location_id q) = None
            /\ location_chart_data locs ps = Raise (KeyError (location_id q)).
Proof.
  intros Hp Hmiss. unfold location_chart_data.
  assert (Hk : In (location_id p) (keys (location_stock ps))).
  { apply grouped_keys. right. now exists p. }
  apply keys_in in Hk. destruct Hk as [n Hn].
  destruct (comprehension_raises (location_entry locs) (location_stock ps))
    as ([loc m] & e & Hin & Hf & Hc).
  { exists (location_id p, n), (KeyError (location_id p)). split; [exact Hn|].
    simpl. unfold dict_getitem. rewrite Hmiss. reflexivity. }
  apply in_keys in Hin. apply grouped_keys in Hin.
  destruct Hin as [[] | (q & Hq & <-)].
  simpl in Hf. unfold dict_getitem in Hf.
  destruct (dict_get locs (location_id q)) as [l|] eqn:Hl; simpl in Hf;
    [discriminate|].
  injection Hf as <-. exists q. repeat split; auto.
Qed.

Lemma chart_values (total : Z) (cc : dict Z) (chart : list CategoryEntry) :
  Forall2 (fun a b => category_entry total a = Ok b) cc chart ->
  sum_values chart = dict_total cc
  /\ map entry_name chart = keys cc
  /\ map value chart = values cc.
Proof.
  induction 1 as [|[cat n] b cc chart Hb _ IH]; [repeat split|].
  destruct IH as (IH1 & IH2 & IH3).
  simpl in Hb.
  destruct (percent_of n total) as [pct|e]; simpl in Hb; [|discriminate].
  injection Hb as <-. unfold dict_total in *. simpl. rewrite IH1, IH2, IH3.
  repeat split.
Qed.


Lemma category_chart_data_defined (ps : list Product) :
  total_products_in_stock ps <> 0 ->
  shares_in_range ps ->
  exists chart, category_chart_data ps = Ok chart.
Proof.
  intros Hne Hrange. unfold category_chart_data.
  destruct (comprehension_ok (category_entry (total_products_in_stock ps))
                             (category_counts ps))
    as (bs & Hbs & _); [|exists bs; exact Hbs].
  intros [cat n] Hin. cbn [category_entry]. unfold percent_of.
  destruct (Z.eqb_spec (total_products_in_stock ps) 0); [contradiction|].
  rewrite (Hrange cat n Hin). cbn [bind]. eauto.
Qed.

(** With a total that is not 0, a share too large for a float makes the
    division raise. *)
Lemma category_chart_data_overflows (ps : list Product) (c : string) (n : Z) :
  total_products_in_stock ps <> 0 ->
  In (c, n) (category_counts ps) ->
  truediv_overflows n (total_products_in_stock ps) = true ->
  category_chart_data ps = Raise OverflowError.
Proof.
  intros Hne Hin Hov. unfold category_chart_data.
  destruct (comprehension_raises (category_entry (total_products_in_stock ps))
                                 (category_counts ps))
    as ([c' n'] & e & _ & Hf & ->).
  { exists (c, n), OverflowError. split; [exact Hin|].
    cbn [category_entry]. unfold percent_of.
    destruct (Z.eqb_spec (total_products_in_stock ps) 0); [contradiction|].
    now rewrite Hov. }
  cbn [category_entry] in Hf. unfold percent_of in Hf.
  destruct (Z.eqb_spec (total_products_in_stock ps) 0); [contradiction|].
  destruct (truediv_overflows n' (total_products_in_stock ps));
    cbn [bind] in Hf; congruence.
Qed.

(** ** Stock levels that are not negative *)







Lemma category_chart_data_nil : category_chart_data [] = Ok [].
Proof. reflexivity. Qed.

(** With products and a total of 0 the division of the first entry raises. *)
Lemma category_chart_data_raises (ps : list Product) :
  ps <> [] -> total_products_in_stock ps = 0 ->
  category_chart_data ps = Raise ZeroDivisionError.
Proof.
  intros Hne Hz. unfold category_chart_data. rewrite Hz.
  destruct (category_counts ps) as [|[cat n] cc] eqn:Hcc.
  - apply grouped_nil_iff in Hcc. contradiction.
  - reflexivity.
Qed.

(** ** [get_dashboard_summary] as a whole *)

(** When the endpoint answers, its fields are the values computed from the
    snapshot. *)
Lemma summary_fields (data : Data) (s : Summary) :
  get_dashboard_summary data = Ok s ->
  s_total_products_in_stock s = total_products_in_stock (values (products data))
  /\ s_low_stock_items s = low_stock_items (values (products data))
  /\ s_out_of_stock_items s = out_of_stock_items (values (products data))
  /\ s_pending_receipts s = pending_receipts (values (documents data))
  /\ s_pending_deliveries s = pending_deliveries (values (documents data))
  /\ s_transfers_scheduled s = transfers_scheduled (values (documents data))
  /\ s_adjustments_pending s = adjustments_pending (values (documents data))
  /\ location_chart_data (locations data) (values (products data))
     = Ok (s_location_chart_data s)
  /\ category_chart_data (values (products data)) = Ok (s_category_chart_data s).
Proof.
  unfold get_dashboard_summary.
  destruct (location_chart_data _ _) as [lc|e]; simpl; [|discriminate].
  destruct (category_chart_data _) as [cc|e]; simpl; [|discriminate].
  intros [= <-]. simpl. repeat split.
Qed.


Lemma sum_stock_all_zero (ps : list Product) :
  (forall p, In p ps -> stock_level p = 0) -> sum_stock ps = 0.
Proof.
  induction ps as [|p ps IH]; intros H; simpl; [reflexivity|].
  rewrite (H p), IH; [reflexivity | | now left].
  intros q Hq. apply H. now right.
Qed.

(** Products that are all out of stock make the endpoint raise, once the
    location chart has been built. *)
Lemma summary_all_out_of_stock (data : Data) :
  locations_cover data ->
  values (products data) <> [] ->
  (forall p, In p (values (products data)) -> stock_level p = 0) ->
  get_dashboard_summary data = Raise ZeroDivisionError.
Proof.
  intros Hcover Hne Hzero. unfold get_dashboard_summary.
  destruct (location_chart_data_defined (locations data) (values (products data)))
    as [lc Hlc]; [exact Hcover|].
  rewrite Hlc. simpl. rewrite category_chart_data_raises; auto.
  rewrite total_products_in_stock_sum. now apply sum_stock_all_zero.
Qed.

(** The endpoint answers only when the locations cover the products. *)
Lemma summary_needs_locations (data : Data) (s : Summary) :
  get_dashboard_summary data = Ok s -> locations_cover data.
Proof.
  intros Hs p Hp Hmiss.
  destruct (location_chart_data_raises _ _ _ Hp Hmiss) as (q & _ & _ & Hr).
  unfold get_dashboard_summary in Hs. rewrite Hr in Hs. discriminate.
Qed.

(** ** Counting *)

Lemma filter_length_insert {A : Type} (f : A -> bool) (x : A) (before after : list A) :
  List.length (filter f (before ++ x :: after))
  = ((if f x then 1 else 0) + List.length (filter f (before ++ after)))%nat.
Proof.
  rewrite !filter_app, !length_app. simpl.
  destruct (f x); simpl; lia.
Qed.

Lemma counted_in_iff (f : Product -> bool) (p : Product) :
  counted_in (fun ps => List.length (filter f ps)) p <-> f p = true.
Proof.
  unfold counted_in. split.
  - intros H. specialize (H [] []). simpl in H.
    destruct (f p); [reflexivity | discriminate].
  - intros Hf before after. rewrite filter_length_insert, Hf. reflexivity.
Qed.

Lemma not_counted_in_iff (f : Product -> bool) (p : Product) :
  not_counted_in (fun ps => List.length (filter f ps)) p <-> f p = false.
Proof.
  unfold not_counted_in. split.
  - intros H. specialize (H [] []). simpl in H.
    destruct (f p); [discriminate | reflexivity].
  - intros Hf before after. rewrite filter_length_insert, Hf. reflexivity.
Qed.

Lemma is_low_stock_iff (p : Product) :
  is_low_stock p = true <-> 1 <= stock_level p <= 20.
Proof.
  unfold is_low_stock, LOW_STOCK_THRESHOLD.
  rewrite andb_true_iff, Z.gtb_lt, Z.leb_le. lia.
Qed.

Lemma is_out_of_stock_iff (p : Product) :
  is_out_of_stock p = true <-> stock_level p = 0.
Proof. unfold is_out_of_stock. apply Z.eqb_eq. Qed.

Lemma in_strings_iff (x : string) (l : list string) :
  in_strings x l = true <-> In x l.
Proof.
  unfold in_strings. rewrite existsb_exists. split.
  - intros (y & Hy & Heq). apply String.eqb_eq in Heq. now subst.
  - intros H. exists x. split; [exact H | apply String.eqb_refl].
Qed.

Lemma counts_filter (P : Document -> Prop) (f : Document -> bool) (docs : list Document) :
  (forall d, f d = true <-> P d) ->
  counts P docs (List.length (filter f docs)).
Proof.
  intros Hf. induction docs as [|d docs IH]; simpl; [constructor|].
  destruct (f d) eqn:Hd; simpl.
  - apply counts_in; [now apply Hf | exact IH].
  - apply counts_out; [|exact IH]. intros HP. apply Hf in HP. congruence.
Qed.

Lemma counts_functional (P : Document -> Prop) (docs : list Document) (n m : nat) :
  counts P docs n -> counts P docs m -> n = m.
Proof.
  intros Hn. revert m. induction Hn; intros m Hm; inversion Hm; subst;
    try reflexivity; try contradiction; auto.
Qed.

Lemma typed_with_status_iff (ty : string) (sts : list string) (d : Document) :
  String.eqb (type d) ty && in_strings (status d) sts = true
  <-> typed_with_status ty sts d.
Proof.
  unfold typed_with_status.
  rewrite andb_true_iff, String.eqb_eq, in_strings_iff. reflexivity.
Qed.

(** ** Membership in a JSON list *)

Lemma str_eq_json_iff (s : string) (j : json) :
  str_eq_json s j = true <-> j = JStr s.
Proof.
  destruct j; simpl; try (split; [discriminate | congruence]).
  rewrite String.eqb_eq. split; congruence.
Qed.

Lemma opt_str_eq_json_iff (o : option string) (j : json) :
  opt_str_eq_json o j = true <-> j = json_of_field o.
Proof.
  destruct o as [s|], j; simpl;
    try (split; [discriminate | congruence]); try tauto.
  rewrite String.eqb_eq. split; congruence.
Qed.

Lemma str_in_iff (s : string) (l : list json) :
  str_in s (JList l) = true <-> In (JStr s) l.
Proof.
  simpl. rewrite existsb_exists. split.
  - intros (j & Hj & Heq). apply str_eq_json_iff in Heq. now subst.
  - intros H. exists (JStr s). split; [exact H | now apply str_eq_json_iff].
Qed.

Lemma opt_str_in_iff (o : option string) (l : list json) :
  opt_str_in o (JList l) = true <-> In (json_of_field o) l.
Proof.
  simpl. rewrite existsb_exists. split.
  - intros (j & Hj & Heq). apply opt_str_eq_json_iff in Heq. now subst.
  - intros H. exists (json_of_field o). split;
      [exact H | now apply opt_str_eq_json_iff].
Qed.

(** The guard of a filter holds exactly on a non-empty list. *)
Lemma filter_active_iff (v : json) :
  filter_active v = true <-> exists l, v = JList l /\ l <> [].
Proof.
  unfold filter_active. split.
  - destruct v as [| | | |l|]; simpl; rewrite ?andb_false_r; try discriminate.
    destruct l; [discriminate|]. intros _. eexists. split; [reflexivity|].
    discriminate.
  - intros (l & -> & Hl). destruct l; [contradiction | reflexivity].
Qed.

Lemma constrains_get (filters : dict json) (key : string) (l : list json) :
  constrains filters key l
  <-> dict_get_default filters key JNull = JList l /\ l <> [].
Proof.
  unfold constrains, dict_get_default.
  destruct (dict_get filters key) as [v|]; split; intros [H Hl]; split; auto;
    congruence.
Qed.

Lemma unconstrained_inactive (filters : dict json) (key : string) :
  unconstrained filters key ->
  filter_active (dict_get_default filters key JNull) = false.
Proof.
  unfold unconstrained, dict_get_default, filter_active.
  intros [H | [H | [(v & H & Hv) | (v & H & Hv)]]]; rewrite H; simpl; auto.
  - now rewrite Hv.
  - rewrite Hv. apply andb_false_r.
Qed.

Lemma inactive_unconstrained (filters : dict json) (key : string) :
  filter_active (dict_get_default filters key JNull) = false ->
  unconstrained filters key.
Proof.
  unfold unconstrained, dict_get_default, filter_active.
  destruct (dict_get filters key) as [v|]; [|now left].
  intros H. apply andb_false_iff in H. right; right.
  destruct H as [H | H]; [left | right]; eauto.
Qed.

(** ** The four passes *)

Lemma filter_true {A : Type} (l : list A) : filter (fun _ => true) l = l.
Proof. induction l as [|x l IH]; simpl; [|rewrite IH]; reflexivity. Qed.

Lemma filter_filter {A : Type} (f g : A -> bool) (l : list A) :
  filter g (filter f l) = filter (fun x => f x && g x) l.
Proof.
  induction l as [|x l IH]; simpl; [reflexivity|].
  destruct (f x); simpl; [destruct (g x)|]; rewrite IH; reflexivity.
Qed.

Lemma filter_by_type_keeps (v : json) (docs : list Document) :
  filter_by_type v docs = filter (keeps_type v) docs.
Proof.
  unfold filter_by_type, keeps_type.
  destruct (filter_active v); [reflexivity | now rewrite filter_true].
Qed.

Lemma filter_by_status_keeps (v : json) (docs : list Document) :
  filter_by_status v docs = filter (keeps_status v) docs.
Proof.
  unfold filter_by_status, keeps_status.
  destruct (filter_active v); [reflexivity | now rewrite filter_true].
Qed.

Lemma filter_by_location_keeps (v : json) (docs : list Document) :
  filter_by_location v docs = filter (keeps_location v) docs.
Proof.
  unfold filter_by_location, keeps_location.
  destruct (filter_active v); [reflexivity | now rewrite filter_true].
Qed.

Lemma filter_by_category_keeps (v : json) (docs : list Document) :
  filter_by_category v docs = filter (keeps_category v) docs.
Proof.
  unfold filter_by_category, keeps_category.
  destruct (filter_active v); [reflexivity | now rewrite filter_true].
Qed.

(** On a JSON object the four passes never raise and amount to one pass. *)
Lemma filtered_docs_keeps (docs : list Document) (filters : dict json) :
  filtered_docs docs (JObj filters) = Ok (filter (keeps filters) docs).
Proof.
  unfold filtered_docs. simpl.
  rewrite filter_by_type_keeps, filter_by_status_keeps,
    filter_by_location_keeps, filter_by_category_keeps, !filter_filter.
  f_equal. apply filter_ext. intros d. unfold keeps.
  now rewrite !andb_assoc.
Qed.

(** Anything but an object has no [get]. *)
Lemma filtered_docs_not_object (docs : list Document) (filters : json) :
  (forall o, filters <> JObj o) ->
  filtered_docs docs filters = Raise AttributeError.
Proof.
  intros H. destruct filters; try reflexivity. now destruct (H o).
Qed.

Lemma keeps_type_iff (v : json) (d : Document) :
  keeps_type v d = true
  <-> forall l, v = JList l -> l <> [] -> satisfies_type l d.
Proof.
  unfold keeps_type, satisfies_type.
  destruct (filter_active v) eqn:Hv.
  - apply filter_active_iff in Hv. destruct Hv as (l0 & -> & Hl0).
    rewrite str_in_iff. split; [intros H l [= <-] _; exact H | auto].
  - split; [|reflexivity]. intros _ l -> Hl.
    assert (filter_active (JList l) = true) by (apply filter_active_iff; eauto).
    congruence.
Qed.

Lemma keeps_status_iff (v : json) (d : Document) :
  keeps_status v d = true
  <-> forall l, v = JList l -> l <> [] -> satisfies_status l d.
Proof.
  unfold keeps_status, satisfies_status.
  destruct (filter_active v) eqn:Hv.
  - apply filter_active_iff in Hv. destruct Hv as (l0 & -> & Hl0).
    rewrite str_in_iff. split; [intros H l [= <-] _; exact H | auto].
  - split; [|reflexivity]. intros _ l -> Hl.
    assert (filter_active (JList l) = true) by (apply filter_active_iff; eauto).
    congruence.
Qed.

Lemma keeps_location_iff (v : json) (d : Document) :
  keeps_location v d = true
  <-> forall l, v = JList l -> l <> [] -> satisfies_location l d.
Proof.
  unfold keeps_location, satisfies_location.
  destruct (filter_active v) eqn:Hv.
  - apply filter_active_iff in Hv. destruct Hv as (l0 & -> & Hl0).
    rewrite orb_true_iff, !opt_str_in_iff.
    split; [intros H l [= <-] _; exact H | auto].
  - split; [|reflexivity]. intros _ l -> Hl.
    assert (filter_active (JList l) = true) by (apply filter_active_iff; eauto).
    congruence.
Qed.

Lemma keeps_category_iff (v : json) (d : Document) :
  keeps_category v d = true
  <-> forall l, v = JList l -> l <> [] -> satisfies_category l d.
Proof.
  unfold keeps_category, satisfies_category.
  destruct (filter_active v) eqn:Hv.
  - apply filter_active_iff in Hv. destruct Hv as (l0 & -> & Hl0).
    rewrite existsb_exists. split.
    + intros (c & Hc & Hin) l [= <-] _. exists c. now rewrite <- str_in_iff.
    + intros H. destruct (H l0 eq_refl Hl0) as (c & Hc & Hin).
      exists c. now rewrite str_in_iff.
  - split; [|reflexivity]. intros _ l -> Hl.
    assert (filter_active (JList l) = true) by (apply filter_active_iff; eauto).
    congruence.
Qed.

(** The four passes keep exactly the documents that satisfy every field
    holding a non-empty list. *)
Lemma keeps_survives (filters : dict json) (d : Document) :
  keeps filters d = true <-> survives filters d.
Proof.
  unfold keeps, survives.
  rewrite !andb_true_iff, keeps_type_iff, keeps_status_iff,
    keeps_location_iff, keeps_category_iff.
  assert (Hc : forall key (P : list json -> Prop),
             (forall l, dict_get_default filters key JNull = JList l ->
                        l <> [] -> P l)
             <-> (forall l, constrains filters key l -> P l)).
  { intros key P. split; intros H l.
    - intros Hl. apply constrains_get in Hl. destruct Hl. now apply H.
    - intros H1 H2. apply H. apply constrains_get. now split. }
  rewrite !Hc. tauto.
Qed.

(** ** Removing a field *)

Lemma dict_get_del {A : Type} (d : dict A) (k k' : string) :
  dict_get (dict_del d k) k' = if String.eqb k k' then None else dict_get d k'.
Proof.
  induction d as [|[k0 v] d IH]; simpl.
  - now destruct (String.eqb k k').
  - destruct (String.eqb_spec k0 k) as [->|Hne]; simpl.
    + rewrite IH. destruct (String.eqb_spec k k'); reflexivity.
    + rewrite IH. destruct (String.eqb_spec k0 k') as [->|Hne'].
      * destruct (String.eqb_spec k k'); [congruence | reflexivity].
      * reflexivity.
Qed.

Lemma inactive_keeps (v : json) (d : Document) :
  filter_active v = false ->
  keeps_type v d = true /\ keeps_status v d = true
  /\ keeps_location v d = true /\ keeps_category v d = true.
Proof.
  intros H. unfold keeps_type, keeps_status, keeps_location, keeps_category.
  rewrite H. repeat split.
Qed.

Lemma keeps_del (filters : dict json) (key : string) (d : Document) :
  unconstrained filters key ->
  keeps (dict_del filters key) d = keeps filters d.
Proof.
  intros Hu. apply unconstrained_inactive in Hu.
  assert (Hget : forall k, dict_get_default (dict_del filters key) k JNull
                           = if String.eqb key k then JNull
                             else dict_get_default filters k JNull).
  { intros k. unfold dict_get_default. rewrite dict_get_del.
    now destruct (String.eqb key k). }
  unfold keeps. rewrite !Hget.
  destruct (inactive_keeps JNull d eq_refl) as (N1 & N2 & N3 & N4).
  destruct (inactive_keeps _ d Hu) as (U1 & U2 & U3 & U4).
  repeat match goal with
         | |- context [String.eqb key ?k] =>
             destruct (String.eqb_spec key k); [subst key|]
         end;
    rewrite ?N1, ?N2, ?N3, ?N4, ?U1, ?U2, ?U3, ?U4; reflexivity.
Qed.

(** ** Sorting by [created_at], most recent first *)

Section Sorting.

Context {A : Type}.
Variable key : A -> string.

Lemma str_ltb_lt (a b : string) :
  str_ltb a b = true <-> String_as_OT.lt a b.
Proof.
  unfold str_ltb, String_as_OT.lt.
  destruct (String_as_OT.compare a b); split; congruence.
Qed.

Lemma str_ltb_asym (a b : string) :
  str_ltb a b = true -> str_ltb b a = false.
Proof.
  intros H. destruct (str_ltb b a) eqn:Hba; [|reflexivity].
  apply str_ltb_lt in H, Hba.
  destruct (StrictOrder_Irreflexive a).
  now apply (StrictOrder_Transitive a b a).
Qed.

(** If [a] is not before [b] and [b] not before [c], then [a] is not
    before [c]. *)
Lemma str_not_ltb_trans (a b c : string) :
  str_ltb a b = false -> str_ltb b c = false -> str_ltb a c = false.
Proof.
  intros Hab Hbc. destruct (str_ltb a c) eqn:Hac; [|reflexivity].
  apply str_ltb_lt in Hac.
  destruct (String_as_OT.compare_spec a b) as [Heq | Hlt | Hgt].
  - unfold String_as_OT.eq in Heq. subst b. apply str_ltb_lt in Hac.
    congruence.
  - apply str_ltb_lt in Hlt. congruence.
  - assert (Hlt : String_as_OT.lt b c)
      by now apply (StrictOrder_Transitive b a c).
    apply str_ltb_lt in Hlt. congruence.
Qed.

Lemma insert_desc_perm (x : A) (l : list A) :
  Permutation (insert_desc key x l) (x :: l).
Proof.
  induction l as [|y l IH]; simpl; [reflexivity|].
  destruct (str_ltb (key x) (key y)); [|reflexivity].
  rewrite IH. apply perm_swap.
Qed.

Lemma sort_reverse_perm (l : list A) : Permutation (sort_reverse key l) l.
Proof.
  induction l as [|x l IH]; simpl; [reflexivity|].
  rewrite insert_desc_perm. now constructor.
Qed.

Lemma sort_reverse_length (l : list A) :
  List.length (sort_reverse key l) = List.length l.
Proof. apply Permutation_length, sort_reverse_perm. Qed.

Lemma insert_desc_sorted (x : A) (l : list A) :
  StronglySorted (not_before key) l ->
  StronglySorted (not_before key) (insert_desc key x l).
Proof.
  induction 1 as [|y l Hs IH Hy]; simpl.
  - repeat constructor.
  - destruct (str_ltb (key x) (key y)) eqn:Hxy.
    + constructor; [exact IH|].
      apply (Permutation_Forall (Permutation_sym (insert_desc_perm x l))).
      constructor; [now apply str_ltb_asym | exact Hy].
    + constructor; [now constructor|].
      constructor; [exact Hxy|].
      eapply Forall_impl; [|exact Hy].
      intros z Hz. now apply (str_not_ltb_trans _ (key y)).
Qed.

Lemma sort_reverse_sorted (l : list A) :
  StronglySorted (not_before key) (sort_reverse key l).
Proof.
  induction l as [|x l IH]; simpl; [constructor|].
  now apply insert_desc_sorted.
Qed.

(** The sort is stable: the elements of one key keep their order. *)
Lemma insert_desc_same_key (k : string) (x : A) (l : list A) :
  filter (fun a => String.eqb (key a) k) (insert_desc key x l)
  = filter (fun a => String.eqb (key a) k) (x :: l).
Proof.
  induction l as [|y l IH]; [reflexivity|].
  cbn [insert_desc]. destruct (str_ltb (key x) (key y)) eqn:Hxy;
    [|reflexivity].
  cbn [filter] in *. rewrite IH.
  destruct (String.eqb_spec (key x) k) as [Hx|Hx];
    destruct (String.eqb_spec (key y) k) as [Hy|Hy]; try reflexivity.
  rewrite Hx, Hy in Hxy. apply str_ltb_lt in Hxy.
  now destruct (StrictOrder_Irreflexive k).
Qed.

Lemma sort_reverse_stable (k : string) (l : list A) :
  filter (fun a => String.eqb (key a) k) (sort_reverse key l)
  = filter (fun a => String.eqb (key a) k) l.
Proof.
  induction l as [|x l IH]; [reflexivity|].
  cbn [sort_reverse fold_right]. rewrite insert_desc_same_key.
  cbn [filter]. fold (sort_reverse key l). now rewrite IH.
Qed.

End Sorting.

(** * The dashboard summary *)

(** C1 (not met by the code).  A snapshot whose products are all out of
    stock should give a summary with every percent at 0.0.  On a snapshot
    with one product, out of stock and stored at an existing location, the
    endpoint raises [ZeroDivisionError] instead: [total_stock] is 0 and the
    entry of the product's category divides by it. *)
Theorem sold_out_summary_raises :
  Forall (fun p => stock_level p = 0) (values (products sold_out_data))
  /\ total_products_in_stock (values (products sold_out_data)) = 0
  /\ category_counts (values (products sold_out_data)) = [("Apparel", 0)]
  /\ get_dashboard_summary sold_out_data = Raise ZeroDivisionError.
Proof.
  split; [repeat constructor | repeat split].
Qed.

(** C2.  [total_products_in_stock] is the sum of the stock levels of all
    products, in the value the endpoint computes and in the summary it
    answers with; without products the endpoint answers, and the total is
    0. *)
Theorem total_products_in_stock_correct (data : Data) :
  total_products_in_stock (values (products data))
  = sum_stock (values (products data))
  /\ (forall s, get_dashboard_summary data = Ok s ->
                s_total_products_in_stock s = sum_stock (values (products data)))
  /\ (products data = [] ->
      exists s, get_dashboard_summary data = Ok s
                /\ s_total_products_in_stock s = 0).
Proof.
  split; [apply total_products_in_stock_sum | split].
  - intros s Hs. apply summary_fields in Hs. destruct Hs as (-> & _).
    apply total_products_in_stock_sum.
  - intros Hnil. destruct data as [ps ds ls]. simpl in Hnil. subst ps.
    eexists. split; reflexivity.
Qed.

Lemma total_products_in_stock_correct_witness :
  (exists s, get_dashboard_summary sample_data = Ok s
             /\ s_total_products_in_stock s = 1170)
  /\ (exists s, get_dashboard_summary (no_products (documents sample_data) []) = Ok s
                /\ s_total_products_in_stock s = 0).
Proof.
  split.
  - eexists. split; [reflexivity|].
    apply (proj1 (proj2 (total_products_in_stock_correct sample_data))).
    reflexivity.
  - apply (proj2 (proj2 (total_products_in_stock_correct
                           (no_products (documents sample_data) [])))).
    reflexivity.
Defined.

(** C3.  A product with a stock level of at least 0, as the data model has
    it, falls in exactly one of three classes: stock 0 and counted in
    [out_of_stock_items]; stock from 1 to 20 and counted in
    [low_stock_items]; stock above 20 and counted in neither.  In the first
    two classes it is counted in one counter only. *)
Theorem stock_classification (p : Product) :
  0 <= stock_level p ->
  exactly_one
    (stock_level p = 0 /\ counted_in out_of_stock_items p)
    (1 <= stock_level p <= 20 /\ counted_in low_stock_items p)
    (stock_level p > 20
     /\ not_counted_in low_stock_items p
     /\ not_counted_in out_of_stock_items p)
  /\ (counted_in out_of_stock_items p -> not_counted_in low_stock_items p)
  /\ (counted_in low_stock_items p -> not_counted_in out_of_stock_items p).
Proof.
  intros Hpos. unfold exactly_one, out_of_stock_items, low_stock_items.
  rewrite !counted_in_iff, !not_counted_in_iff.
  pose proof (is_low_stock_iff p) as Hlow.
  pose proof (is_out_of_stock_iff p) as Hout.
  destruct (is_low_stock p), (is_out_of_stock p);
    repeat split; try congruence;
    try (assert (stock_level p = 0) by (now apply Hout));
    try (assert (1 <= stock_level p <= 20) by (now apply Hlow));
    try lia.
Qed.

(** Below 0, which the data model excludes, a product is counted in
    neither counter. *)
Lemma negative_stock_uncounted (p : Product) :
  stock_level p < 0 ->
  not_counted_in low_stock_items p /\ not_counted_in out_of_stock_items p.
Proof.
  intros Hneg. unfold out_of_stock_items, low_stock_items.
  rewrite !not_counted_in_iff.
  pose proof (is_low_stock_iff p) as Hlow.
  pose proof (is_out_of_stock_iff p) as Hout.
  destruct (is_low_stock p), (is_out_of_stock p); split; try reflexivity;
    try (assert (stock_level p = 0) by (now apply Hout));
    try (assert (1 <= stock_level p <= 20) by (now apply Hlow)); lia.
Qed.

Lemma stock_classification_witness :
  0 <= stock_level (product_at "P1" "Apparel" "W001" 10)
  /\ counted_in low_stock_items (product_at "P1" "Apparel" "W001" 10)
  /\ not_counted_in out_of_stock_items (product_at "P1" "Apparel" "W001" 10).
Proof.
  assert (H : 0 <= stock_level (product_at "P1" "Apparel" "W001" 10))
    by (simpl; lia).
  split; [exact H|].
  destruct (stock_classification _ H) as ([(E & _) | [(_ & Hb & _) | (_ & _ & E & _)]] & _ & Hlow).
  - simpl in E. destruct E as [E _]. discriminate E.
  - destruct Hb as [_ Hc]. split; [exact Hc | exact (Hlow Hc)].
  - simpl in E. lia.
Defined.

(** C4.  [adjustments_pending] counts exactly the documents of type
    Adjustment whose status is Draft, Waiting or Ready; [pending_receipts],
    [pending_deliveries] and [transfers_scheduled] count the documents of
    type Receipt, Delivery and Internal whose status is Waiting or Ready
    only.  The fields of the summary are these counts. *)
Theorem pending_document_counters (data : Data) :
  let docs := values (documents data) in
  counts (typed_with_status "Adjustment" ["Draft"; "Waiting"; "Ready"])
         docs (adjustments_pending docs)
  /\ counts (typed_with_status "Receipt" ["Waiting"; "Ready"])
            docs (pending_receipts docs)
  /\ counts (typed_with_status "Delivery" ["Waiting"; "Ready"])
            docs (pending_deliveries docs)
  /\ counts (typed_with_status "Internal" ["Waiting"; "Ready"])
            docs (transfers_scheduled docs)
  /\ (forall s, get_dashboard_summary data = Ok s ->
        s_adjustments_pending s = adjustments_pending docs
        /\ s_pending_receipts s = pending_receipts docs
        /\ s_pending_deliveries s = pending_deliveries docs
        /\ s_transfers_scheduled s = transfers_scheduled docs).
Proof.
  intros docs.
  repeat apply conj;
    try (apply counts_filter; intros d; apply typed_with_status_iff).
  intros s Hs. apply summary_fields in Hs. tauto.
Qed.

Lemma pending_document_counters_witness :
  exists s, get_dashboard_summary sample_data = Ok s
            /\ s_adjustments_pending s = 0%nat
            /\ s_pending_receipts s = 1%nat
            /\ s_pending_deliveries s = 1%nat
            /\ s_transfers_scheduled s = 0%nat.
Proof.
  eexists. split; [reflexivity|].
  apply (proj2 (proj2 (proj2 (proj2 (pending_document_counters sample_data))))).
  reflexivity.
Defined.



(** C10.  A product whose [location_id] is not a key of [locations] makes
    the construction of [location_chart_data] raise [KeyError], on the
    missing id of such a product, and the endpoint raises it instead of
    answering with a summary. *)
Theorem missing_location_raises (data : Data) (p : Product) :
  In p (values (products data)) ->
  dict_get (locations data) (location_id p) = None ->
  exists q, In q (values (products data))
            /\ dict_get (locations data) (location_id q) = None
            /\ location_chart_data (locations data) (values (products data))
               = Raise (KeyError (location_id q))
            /\ get_dashboard_summary data = Raise (KeyError (location_id q)).
Proof.
  intros Hp Hmiss.
  destruct (location_chart_data_raises _ _ _ Hp Hmiss) as (q & Hq & Hm & Hr).
  exists q. repeat split; auto.
  unfold get_dashboard_summary. rewrite Hr. reflexivity.
Qed.

Lemma missing_location_raises_witness :
  In (product_at "P9" "Apparel" "W999" 7) (values (products stray_data))
  /\ dict_get (locations stray_data) "W999" = None
  /\ exists q, get_dashboard_summary stray_data = Raise (KeyError (location_id q)).
Proof.
  assert (Hin : In (product_at "P9" "Apparel" "W999" 7)
                  (values (products stray_data)))
    by (simpl; tauto).
  assert (Hmiss : dict_get (locations stray_data)
                    (location_id (product_at "P9" "Apparel" "W999" 7)) = None)
    by reflexivity.
  split; [exact Hin | split; [exact Hmiss|]].
  destruct (missing_location_raises stray_data _ Hin Hmiss)
    as (q & _ & _ & _ & Hr).
  exists q. exact Hr.
Defined.

(** * The document filter *)

Lemma filter_fixpoint {A : Type} (f : A -> bool) (l : list A) :
  Forall (fun x => f x = true) l -> filter f l = l.
Proof.
  induction 1 as [|x l Hx _ IH]; simpl; [reflexivity|].
  now rewrite Hx, IH.
Qed.

Lemma filter_all {A : Type} (f : A -> bool) (l : list A) :
  Forall (fun x => f x = true) (filter f l).
Proof. apply Forall_forall. intros x Hx. now apply filter_In in Hx. Qed.

(** On any request body, filtering what was matched matches it all. *)
Lemma filtered_docs_twice (docs : list Document) (filters : json) :
  (matched <- filtered_docs docs filters ;; filtered_docs matched filters)
  = filtered_docs docs filters.
Proof.
  destruct filters; try reflexivity.
  rewrite filtered_docs_keeps. simpl. rewrite filtered_docs_keeps.
  now rewrite (filter_fixpoint _ _ (filter_all _ _)).
Qed.

(** C5.  On a filter spec that is a JSON object the four passes never raise,
    and they keep, in their order, exactly the documents that satisfy every
    present field, a field being present when it holds a non-empty list.  A
    recognised field that is absent, null, empty or not a list constrains
    nothing: the outcome is the one of the spec without that field. *)
Theorem filter_conjunction (docs : list Document) (filters : dict json) :
  exists matched,
    filtered_docs docs (JObj filters) = Ok matched
    /\ (exists keep, matched = filter keep docs
                     /\ forall d, keep d = true <-> survives filters d)
    /\ (forall d, In d matched <-> In d docs /\ survives filters d)
    /\ (forall key, recognised key -> unconstrained filters key ->
          (forall l, ~ constrains filters key l)
          /\ filtered_docs docs (JObj (dict_del filters key)) = Ok matched).
Proof.
  exists (filter (keeps filters) docs).
  split; [apply filtered_docs_keeps | split; [|split]].
  - exists (keeps filters). split; [reflexivity | apply keeps_survives].
  - intros d. rewrite filter_In, keeps_survives. reflexivity.
  - intros key _ Hu. split.
    + intros l Hc. apply constrains_get in Hc. destruct Hc as [Hget Hl].
      apply unconstrained_inactive in Hu.
      assert (Ha : filter_active (dict_get_default filters key JNull) = true)
        by (apply filter_active_iff; eauto).
      congruence.
    + rewrite filtered_docs_keeps. f_equal. apply filter_ext.
      intros d. now apply keeps_del.
Qed.

Lemma filter_conjunction_witness :
  let filters := [("document_type", JList [JStr "Receipt"]);
                  ("status", JStr "Waiting")] in
  let docs := values (documents sample_data) in
  recognised "status"
  /\ unconstrained filters "status"
  /\ exists matched,
       filtered_docs docs (JObj filters) = Ok matched
       /\ filtered_docs docs (JObj (dict_del filters "status")) = Ok matched
       /\ map id matched = ["R002"].
Proof.
  intros filters docs.
  assert (Hr : recognised "status") by (right; left; reflexivity).
  assert (Hu : unconstrained filters "status").
  { right; right; right. exists (JStr "Waiting"). split; reflexivity. }
  split; [exact Hr | split; [exact Hu|]].
  destruct (filter_conjunction docs filters) as (matched & Hm & _ & _ & Hkey).
  exists matched. split; [exact Hm | split].
  - exact (proj2 (Hkey "status" Hr Hu)).
  - vm_compute in Hm. injection Hm as <-. reflexivity.
Defined.

(** C6, as the code has it.  With a non-empty list that holds no null in the
    location field, the location pass keeps a document exactly when its
    [source_location] or its [target_location] is one of the strings of the
    list, and a document with neither field is dropped. *)
Theorem location_filter_without_null
  (filters : dict json) (docs : list Document) (l : list json) (d : Document) :
  dict_get filters "location" = Some (JList l) ->
  l <> [] ->
  ~ In JNull l ->
  (In d (location_pass filters docs) <-> In d docs /\ has_location_in l d)
  /\ (source_location d = None -> target_location d = None ->
      ~ In d (location_pass filters docs)).
Proof.
  intros Hget Hl Hnull.
  assert (Hfield : forall o, In (json_of_field o) l
                             <-> exists s, o = Some s /\ In (JStr s) l).
  { intros [s|]; simpl; split.
    - eauto.
    - intros (s' & [= <-] & H). exact H.
    - contradiction.
    - intros (s' & [=] & _). }
  assert (Hiff : In d (location_pass filters docs)
                 <-> In d docs /\ has_location_in l d).
  { unfold location_pass, dict_get_default. rewrite Hget.
    rewrite filter_by_location_keeps, filter_In, keeps_location_iff.
    unfold satisfies_location, has_location_in. split.
    - intros [Hd H]. split; [exact Hd|].
      destruct (H l eq_refl Hl) as [Hs | Ht]; apply Hfield in Hs || apply Hfield in Ht.
      + destruct Hs as (s & Hs & Hin). eauto.
      + destruct Ht as (s & Hs & Hin). eauto.
    - intros [Hd (s & Hs & Hin)]. split; [exact Hd|].
      intros l' [= <-] _. rewrite !Hfield. destruct Hs; eauto. }
  split; [exact Hiff|].
  intros Hs Ht Hin. apply Hiff in Hin. destruct Hin as [_ (s & [H | H] & _)];
    congruence.
Qed.

Lemma location_filter_without_null_witness :
  let filters := [("location", JList [JStr "W002"])] in
  let docs := values (documents sample_data) in
  dict_get filters "location" = Some (JList [JStr "W002"])
  /\ [JStr "W002"] <> []
  /\ ~ In JNull [JStr "W002"]
  /\ forall d, In d (location_pass filters docs)
               <-> In d docs /\ has_location_in [JStr "W002"] d.
Proof.
  intros filters docs.
  assert (H1 : dict_get filters "location" = Some (JList [JStr "W002"]))
    by reflexivity.
  assert (H2 : [JStr "W002"] <> []) by discriminate.
  assert (H3 : ~ In JNull [JStr "W002"]) by (intros [H | []]; discriminate H).
  split; [exact H1 | split; [exact H2 | split; [exact H3|]]].
  intros d.
  exact (proj1 (location_filter_without_null filters docs _ d H1 H2 H3)).
Defined.

(** C6 as it is stated fails: with [null] in the list, a document
    with neither location field is kept by the location pass, since
    [doc.get] answers [None] for a missing field and [None] is in the
    list. *)
Lemma location_filter_by_fields_fails :
  ~ location_filter_by_fields
      [("location", JList [JNull])]
      [document_at "A004" "Adjustment" "Done" "2025-01-01T10:00:03"].
Proof.
  intros H.
  specialize (H [JNull] eq_refl ltac:(discriminate)
                (document_at "A004" "Adjustment" "Done" "2025-01-01T10:00:03")).
  destruct H as [H _].
  destruct H as [_ (s & [Hs | Hs] & _)]; [now left | discriminate Hs ..].
Qed.

(** With [null] in the list the endpoint answers with the three seeded
    documents that lack one of the two location fields. *)
Example location_null_on_sample :
  exists r, filter_documents sample_data (JObj [("location", JList [JNull])]) = Ok r
            /\ count r = 3%nat
            /\ map id (response_documents r) = ["A004"; "R002"; "D001"].
Proof. eexists. repeat split. Qed.

(** C7.  The endpoint answers with [count], the number of matched documents
    before truncation, and with the first 15 of the matched documents sorted
    on [created_at], most recent first: the sorted list is a permutation of
    the matched one, no document in it is followed by a more recent one, and
    documents created at the same time keep their order.  So 20 matches give
    a count of 20 and 15 documents. *)
Theorem filter_response (data : Data) (filters : dict json) :
  exists matched,
    filtered_docs (values (documents data)) (JObj filters) = Ok matched
    /\ let sorted := sort_reverse created_at matched in
       filter_documents data (JObj filters)
       = Ok {| count := List.length matched;
               response_documents := firstn 15 sorted |}
       /\ Permutation sorted matched
       /\ sorted_desc sorted
       /\ (forall t, filter (fun d => String.eqb (created_at d) t) sorted
                     = filter (fun d => String.eqb (created_at d) t) matched)
       /\ List.length (firstn 15 sorted) = Nat.min 15 (List.length matched).
Proof.
  exists (filter (keeps filters) (values (documents data))).
  split; [apply filtered_docs_keeps|]. intros sorted. repeat apply conj.
  - unfold filter_documents. rewrite filtered_docs_keeps. simpl.
    now rewrite sort_reverse_length.
  - apply sort_reverse_perm.
  - apply sort_reverse_sorted.
  - intros t. apply sort_reverse_stable.
  - rewrite length_firstn. unfold sorted. now rewrite sort_reverse_length.
Qed.

(** Twenty receipts, no filter: a count of 20, and the 15 most recent
    documents, most recent first. *)
Example twenty_matches :
  exists r, filter_documents twenty_data (JObj []) = Ok r
            /\ count r = 20%nat
            /\ List.length (response_documents r) = 15%nat
            /\ map id (response_documents r)
               = ["19"; "18"; "17"; "16"; "15"; "14"; "13"; "12"; "11"; "10";
                  "09"; "08"; "07"; "06"; "05"].
Proof. eexists. repeat split. Qed.

(** C8.  Filtering is idempotent: the documents matched by a filter spec,
    filtered again with the same spec, are all matched again, in the same
    order; and so are they once sorted for the answer. *)
Theorem filtering_idempotent (docs : list Document) (filters : dict json) :
  exists matched,
    filtered_docs docs (JObj filters) = Ok matched
    /\ filtered_docs matched (JObj filters) = Ok matched
    /\ filtered_docs (sort_reverse created_at matched) (JObj filters)
       = Ok (sort_reverse created_at matched).
Proof.
  exists (filter (keeps filters) docs).
  split; [apply filtered_docs_keeps | split]; rewrite filtered_docs_keeps; f_equal.
  - apply filter_fixpoint, filter_all.
  - apply filter_fixpoint.
    apply (Permutation_Forall (Permutation_sym (sort_reverse_perm created_at _))).
    apply filter_all.
Qed.

(** ** The scenarios of the seeded data *)

Example receipts_on_sample :
  exists r, filter_documents sample_data
              (JObj [("document_type", JList [JStr "Receipt"])]) = Ok r
            /\ count r = 1%nat /\ map id (response_documents r) = ["R002"].
Proof. eexists. repeat split. Qed.

Example pending_deliveries_on_sample :
  exists r, filter_documents sample_data
              (JObj [("status", JList [JStr "Waiting"; JStr "Ready"]);
                     ("document_type", JList [JStr "Delivery"])]) = Ok r
            /\ count r = 1%nat /\ map id (response_documents r) = ["D001"].
Proof. eexists. repeat split. Qed.

Example no_filter_on_sample :
  exists r, filter_documents sample_data (JObj []) = Ok r
            /\ count r = 4%nat
            /\ map id (response_documents r) = ["A004"; "T003"; "R002"; "D001"].
Proof. eexists. repeat split. Qed.

(** A body that is not an object makes the endpoint raise. *)
Example null_body_raises :
  filter_documents sample_data JNull = Raise AttributeError.
Proof. reflexivity. Qed.

(** * Further properties of the dashboard *)

(** ** Lookups in the grouped stock *)

Lemma dict_get_set {A : Type} (d : dict A) (k k' : string) (v : A) :
  dict_get (dict_set d k v) k'
  = if String.eqb k k' then Some v else dict_get d k'.
Proof.
  induction d as [|[k0 v0] d IH]; simpl.
  - reflexivity.
  - destruct (String.eqb_spec k0 k) as [->|Hne]; simpl.
    + destruct (String.eqb k k'); reflexivity.
    + rewrite IH. destruct (String.eqb_spec k0 k') as [->|Hne'];
        [|reflexivity].
      destruct (String.eqb_spec k k'); [congruence | reflexivity].
Qed.

Lemma dict_get_keys {A : Type} (d : dict A) (k : string) :
  dict_get d k <> None <-> In k (keys d).
Proof.
  induction d as [|[k0 v0] d IH]; simpl.
  - split; [congruence | contradiction].
  - destruct (String.eqb_spec k0 k) as [->|Hne].
    + split; [auto | discriminate].
    + rewrite IH. split; [auto | intros [H | H]; [contradiction | exact H]].
Qed.

Lemma keys_dict_set {A : Type} (d : dict A) (k : string) (v : A) :
  keys (dict_set d k v) = add_once (keys d) k.
Proof.
  unfold add_once, in_strings.
  induction d as [|[k0 v0] d IH]; simpl; [reflexivity|].
  rewrite (String.eqb_sym k k0).
  destruct (String.eqb_spec k0 k) as [->|Hne]; simpl; [reflexivity|].
  rewrite IH. now destruct (existsb (String.eqb k) (keys d)).
Qed.

Lemma add_once_nodup (seen : list string) (k : string) :
  NoDup seen -> NoDup (add_once seen k).
Proof.
  intros Hnd. unfold add_once.
  destruct (in_strings k seen) eqn:Hin; [exact Hnd|].
  apply NoDup_app; [exact Hnd | repeat constructor; intros [] |].
  intros x Hx [<- | []].
  apply in_strings_iff in Hx. congruence.
Qed.

Lemma fold_add_once_nodup (l seen : list string) :
  NoDup seen -> NoDup (fold_left add_once l seen).
Proof.
  revert seen. induction l as [|k l IH]; intros seen Hnd; simpl; [exact Hnd|].
  apply IH. now apply add_once_nodup.
Qed.

Lemma fold_add_once_in (l seen : list string) (k : string) :
  In k (fold_left add_once l seen) <-> In k seen \/ In k l.
Proof.
  revert seen. induction l as [|x l IH]; intros seen; simpl; [tauto|].
  rewrite IH. unfold add_once.
  destruct (in_strings x seen) eqn:Hx.
  - apply in_strings_iff in Hx. split; [tauto|].
    intros [H | [<- | H]]; auto.
  - rewrite in_app_iff. simpl. tauto.
Qed.

Section GroupedLookup.

Variable key : Product -> string.

Lemma grouped_key_order (ps : list Product) (acc : dict Z) :
  keys (fold_left (add_stock key) ps acc)
  = fold_left add_once (map key ps) (keys acc).
Proof.
  revert acc. induction ps as [|p ps IH]; intros acc; simpl; [reflexivity|].
  rewrite IH. unfold add_stock. now rewrite keys_dict_set.
Qed.

Lemma stock_of_cons (k : string) (p : Product) (ps : list Product) :
  stock_of key k (p :: ps)
  = (if String.eqb (key p) k then stock_level p else 0) + stock_of key k ps.
Proof.
  unfold stock_of. simpl. now destruct (String.eqb (key p) k).
Qed.

Lemma grouped_get_default (ps : list Product) (acc : dict Z) (k : string) :
  dict_get_default (fold_left (add_stock key) ps acc) k 0
  = dict_get_default acc k 0 + stock_of key k ps.
Proof.
  revert acc. induction ps as [|p ps IH]; intros acc.
  - unfold stock_of. simpl. lia.
  - cbn [fold_left]. rewrite IH, stock_of_cons.
    unfold add_stock, dict_get_default at 1. rewrite dict_get_set.
    destruct (String.eqb_spec (key p) k) as [->|Hne].
    + lia.
    + fold (dict_get_default acc k 0). lia.
Qed.

(** The grouped dict has a key exactly for the keys of the products, and
    holds under it the stock of the products of that key. *)
Lemma grouped_get (ps : list Product) (k : string) :
  dict_get (fold_left (add_stock key) ps []) k
  = if existsb (fun p => String.eqb (key p) k) ps
    then Some (stock_of key k ps)
    else None.
Proof.
  pose proof (grouped_get_default ps [] k) as Hv.
  pose proof (dict_get_keys (fold_left (add_stock key) ps []) k) as Hk.
  rewrite grouped_keys in Hk. unfold dict_get_default in Hv. simpl in Hv.
  destruct (existsb (fun p => String.eqb (key p) k) ps) eqn:Hex.
  - apply existsb_exists in Hex. destruct Hex as (p & Hp & Heq).
    apply String.eqb_eq in Heq.
    destruct (dict_get (fold_left (add_stock key) ps []) k) as [v|].
    + now rewrite Hv.
    + destruct (proj2 Hk); [eauto | reflexivity].
  - destruct (dict_get (fold_left (add_stock key) ps []) k) as [v|];
      [|reflexivity].
    destruct (proj1 Hk) as [[] | (p & Hp & Heq)]; [discriminate|].
    assert (existsb (fun p => String.eqb (key p) k) ps = true).
    { apply existsb_exists. exists p. split; [exact Hp|].
      now apply String.eqb_eq. }
    congruence.
Qed.

Lemma grouped_first_occurrences (ps : list Product) :
  keys (fold_left (add_stock key) ps []) = first_occurrences (map key ps).
Proof. apply grouped_key_order. Qed.

End GroupedLookup.

Lemma dict_items_get {A : Type} (d : dict A) (k : string) (v : A) :
  NoDup (keys d) -> In (k, v) d -> dict_get d k = Some v.
Proof.
  induction d as [|[k0 v0] d IH]; simpl; [contradiction|].
  intros Hnd [[= -> ->] | Hin].
  - now rewrite String.eqb_refl.
  - inversion Hnd as [|? ? Hnotin Hnd']; subst.
    destruct (String.eqb_spec k0 k) as [->|Hne]; [|now apply IH].
    destruct Hnotin. now apply (in_keys d k v).
Qed.

Lemma dict_values_by_key (d : dict Z) :
  NoDup (keys d) -> values d = map (fun k => dict_get_default d k 0) (keys d).
Proof.
  intros Hnd. unfold values, keys. rewrite map_map.
  apply map_ext_in. intros [k v] Hin. simpl.
  unfold dict_get_default. now rewrite (dict_items_get d k v Hnd Hin).
Qed.

Lemma comprehension_raise_inv {A B : Type} (f : A -> result B) (l : list A) (e : exn) :
  comprehension f l = Raise e -> exists a, In a l /\ f a = Raise e.
Proof.
  induction l as [|a l IH]; simpl; [discriminate|].
  destruct (f a) as [b|e'] eqn:Hfa; simpl.
  - destruct (comprehension f l) as [bs|e'']; simpl; [discriminate|].
    intros [= ->]. destruct (IH eq_refl) as (x & Hx & Hfx). eauto.
  - intros [= ->]. eauto.
Qed.

Lemma location_entries (locs : dict Location) (ls : dict Z) (chart : list LocationEntry) :
  Forall2 (fun a b => location_entry locs a = Ok b) ls chart ->
  sum_location_stock chart = dict_total ls
  /\ Forall2 (fun a b => exists l, dict_get locs (fst a) = Some l
                                  /\ location b = name l /\ stock b = snd a)
             ls chart.
Proof.
  induction 1 as [|[loc n] b ls chart Hb _ IH]; [split; constructor|].
  destruct IH as (IH1 & IH2). simpl in Hb. unfold dict_getitem in Hb.
  destruct (dict_get locs loc) as [l|] eqn:Hl; simpl in Hb; [|discriminate].
  injection Hb as <-. unfold dict_total in *. simpl. rewrite IH1.
  split; [reflexivity|]. constructor; [|exact IH2]. simpl. eauto.
Qed.

Lemma location_stock_nodup (ps : list Product) : NoDup (keys (location_stock ps)).
Proof.
  unfold location_stock. rewrite grouped_key_order.
  apply fold_add_once_nodup. constructor.
Qed.

Lemma category_counts_nodup (ps : list Product) : NoDup (keys (category_counts ps)).
Proof.
  unfold category_counts. rewrite grouped_key_order.
  apply fold_add_once_nodup. constructor.
Qed.

(** X1.  The stocks of [location_chart_data] add up to
    [total_products_in_stock]: in the dict [location_stock] the endpoint
    builds, and in every summary it answers with. *)
Theorem location_stock_sums_to_total (data : Data) :
  let ps := values (products data) in
  dict_total (location_stock ps) = total_products_in_stock ps
  /\ (forall s, get_dashboard_summary data = Ok s ->
        sum_location_stock (s_location_chart_data s)
        = s_total_products_in_stock s).
Proof.
  intros ps.
  assert (Ht : dict_total (location_stock ps) = total_products_in_stock ps).
  { unfold location_stock. rewrite grouped_total.
    now rewrite total_products_in_stock_sum. }
  split; [exact Ht|].
  intros s Hs. apply summary_fields in Hs.
  destruct Hs as (-> & _ & _ & _ & _ & _ & _ & Hl & _).
  apply comprehension_inv, location_entries in Hl.
  destruct Hl as [-> _]. exact Ht.
Qed.

Lemma location_stock_sums_to_total_witness :
  exists s, get_dashboard_summary sample_data = Ok s
            /\ sum_location_stock (s_location_chart_data s) = 1170.
Proof.
  eexists. split; [reflexivity|].
  exact (proj2 (location_stock_sums_to_total sample_data) _ eq_refl).
Defined.

(** X2.  Grouping is exact: [category_counts] has a key for a category
    exactly when some product has it, and holds under it the sum of the stock
    levels of the products of that category; [location_stock] does the same
    with the location ids. *)
Theorem grouped_stock_lookup (ps : list Product) (k : string) :
  dict_get (category_counts ps) k
  = (if existsb (fun p => String.eqb (category p) k) ps
     then Some (stock_of category k ps) else None)
  /\ dict_get (location_stock ps) k
     = (if existsb (fun p => String.eqb (location_id p) k) ps
        then Some (stock_of location_id k ps) else None).
Proof. split; apply grouped_get. Qed.

(** X3.  In a summary the category chart has one entry per distinct category
    of the products, in the order in which the categories first occur: the
    names are distinct, each value is the stock of the products of that
    category, and each percent is taken of that value over the total. *)
Theorem category_chart_entries (data : Data) (s : Summary) :
  get_dashboard_summary data = Ok s ->
  let ps := values (products data) in
  let chart := s_category_chart_data s in
  map entry_name chart = first_occurrences (map category ps)
  /\ NoDup (map entry_name chart)
  /\ Forall (fun e => value e = stock_of category (entry_name e) ps
                      /\ percent e = Round1 (value e) (total_products_in_stock ps))
            chart.
Proof.
  intros Hs ps chart. apply summary_fields in Hs.
  destruct Hs as (_ & _ & _ & _ & _ & _ & _ & _ & Hc).
  fold ps chart in Hc. apply comprehension_inv in Hc.
  pose proof (chart_values _ _ _ Hc) as (_ & Hnames & _).
  pose proof (category_counts_nodup ps) as Hnd.
  split; [|split].
  - rewrite Hnames. apply grouped_first_occurrences.
  - rewrite Hnames. exact Hnd.
  - apply Forall_forall. intros e He.
    assert (Hin : exists a, In a (category_counts ps)
                            /\ category_entry (total_products_in_stock ps) a = Ok e).
    { clear Hnames Hnd. induction Hc as [|a b l l' Hab _ IH];
        [destruct He|].
      destruct He as [<- | He]; [exists a; split; [now left | exact Hab]|].
      destruct (IH He) as (a' & Ha' & Hf). exists a'. split; [now right | exact Hf]. }
    destruct Hin as ([cat n] & Hin & Hf).
    cbn [category_entry] in Hf. unfold percent_of in Hf.
    destruct (total_products_in_stock ps =? 0); cbn [bind] in Hf;
      [discriminate|].
    destruct (truediv_overflows n (total_products_in_stock ps));
      cbn [bind] in Hf; [discriminate|].
    injection Hf as <-. cbn [value entry_name percent].
    split; [|reflexivity].
    pose proof (dict_items_get _ _ _ Hnd Hin) as Hget.
    unfold category_counts in Hget. rewrite grouped_get in Hget.
    destruct (existsb _ ps); congruence.
Qed.

Lemma category_chart_entries_witness :
  exists s, get_dashboard_summary sample_data = Ok s
            /\ map entry_name (s_category_chart_data s)
               = ["Electronics"; "Peripherals"; "Components"; "Apparel";
                  "Home Goods"]
            /\ NoDup (map entry_name (s_category_chart_data s)).
Proof.
  eexists. split; [reflexivity|].
  destruct (category_chart_entries sample_data _ eq_refl) as (H1 & H2 & _).
  split; [exact H1 | exact H2].
Defined.

Lemma Forall2_keys {A B : Type} (P : string * A -> B -> Prop)
  (Q : string -> B -> Prop) (d : dict A) (bs : list B) :
  (forall a b, In a d -> P a b -> Q (fst a) b) ->
  Forall2 P d bs -> Forall2 Q (keys d) bs.
Proof.
  intros HPQ H. induction H as [|a b d bs Hab _ IH]; simpl; constructor.
  - apply HPQ; [now left | exact Hab].
  - apply IH. intros a' b' Hin. apply HPQ. now right.
Qed.

(** X4.  In a summary the location chart has one entry per distinct
    [location_id] of the products, in the order in which the ids first
    occur: the entry carries the name of that location and the stock of the
    products stored there.  Locations without products have no entry. *)
Theorem location_chart_entries (data : Data) (s : Summary) :
  get_dashboard_summary data = Ok s ->
  let ps := values (products data) in
  Forall2 (fun k e => exists l, dict_get (locations data) k = Some l
                                /\ location e = name l
                                /\ stock e = stock_of location_id k ps)
          (first_occurrences (map location_id ps))
          (s_location_chart_data s).
Proof.
  intros Hs ps. apply summary_fields in Hs.
  destruct Hs as (_ & _ & _ & _ & _ & _ & _ & Hl & _).
  fold ps in Hl. apply comprehension_inv, location_entries in Hl.
  destruct Hl as [_ Hl].
  rewrite <- (grouped_first_occurrences location_id ps).
  fold (location_stock ps).
  revert Hl. apply Forall2_keys. intros [k n] e Hin (l & Hget & Hname & Hstock).
  simpl in *. exists l. repeat split; auto.
  pose proof (dict_items_get _ _ _ (location_stock_nodup ps) Hin) as Hn.
  unfold location_stock in Hn. rewrite grouped_get in Hn.
  destruct (existsb _ ps); congruence.
Qed.

Lemma location_chart_entries_witness :
  exists s, get_dashboard_summary sample_data = Ok s
            /\ Forall2 (fun k e =>
                          exists l, dict_get (locations sample_data) k = Some l
                                    /\ location e = name l
                                    /\ stock e
                                       = stock_of location_id k
                                           (values (products sample_data)))
                       ["W001"; "W002"] (s_location_chart_data s).
Proof.
  eexists. split; [reflexivity|].
  exact (location_chart_entries sample_data _ eq_refl).
Defined.

(** ** When the endpoint answers *)

Lemma location_chart_data_ok_cover (data : Data) (lc : list LocationEntry) :
  location_chart_data (locations data) (values (products data)) = Ok lc ->
  locations_cover data.
Proof.
  intros Hok p Hp Hmiss.
  destruct (location_chart_data_raises _ _ _ Hp Hmiss) as (q & _ & _ & Hr).
  congruence.
Qed.

Lemma location_chart_data_raise_inv (data : Data) (e : exn) :
  location_chart_data (locations data) (values (products data)) = Raise e ->
  exists p, In p (values (products data))
            /\ dict_get (locations data) (location_id p) = None
            /\ e = KeyError (location_id p).
Proof.
  intros Hr. apply comprehension_raise_inv in Hr.
  destruct Hr as ([k n] & Hin & Hf). apply in_keys in Hin.
  apply grouped_keys in Hin. destruct Hin as [[] | (p & Hp & <-)].
  simpl in Hf. unfold dict_getitem in Hf.
  destruct (dict_get (locations data) (location_id p)) eqn:Hget;
    simpl in Hf; [discriminate|].
  injection Hf as <-. exists p. auto.
Qed.

Lemma category_chart_data_cases (ps : list Product) :
  (ps <> [] /\ total_products_in_stock ps = 0
   /\ category_chart_data ps = Raise ZeroDivisionError)
  \/ (total_products_in_stock ps <> 0
      /\ (exists c n, In (c, n) (category_counts ps)
                      /\ truediv_overflows n (total_products_in_stock ps) = true)
      /\ category_chart_data ps = Raise OverflowError)
  \/ ((ps = [] \/ total_products_in_stock ps <> 0)
      /\ shares_in_range ps
      /\ exists cc, category_chart_data ps = Ok cc).
Proof.
  destruct ps as [|p ps'] eqn:Hps.
  - right; right. split; [now left | split; [intros c n [] |]].
    exists []. reflexivity.
  - rewrite <- Hps.
    assert (Hne : ps <> []) by (rewrite Hps; discriminate).
    destruct (Z.eq_dec (total_products_in_stock ps) 0) as [Hz | Hnz].
    + left. repeat split; auto. now apply category_chart_data_raises.
    + right.
      destruct (existsb (fun item : string * Z =>
                           truediv_overflows (snd item)
                             (total_products_in_stock ps))
                        (category_counts ps)) eqn:Hex.
      * left. apply existsb_exists in Hex. destruct Hex as ([c n] & Hin & Hov).
        cbn [snd] in Hov. split; [exact Hnz | split; [eauto|]].
        now apply (category_chart_data_overflows ps c n).
      * right.
        assert (Hrange : shares_in_range ps).
        { intros c n Hin.
          destruct (truediv_overflows n (total_products_in_stock ps)) eqn:Hov;
            [|reflexivity].
          assert (Htrue : existsb (fun item : string * Z =>
                                     truediv_overflows (snd item)
                                       (total_products_in_stock ps))
                                  (category_counts ps) = true).
          { apply existsb_exists. exists (c, n). split; [exact Hin | exact Hov]. }
          congruence. }
        split; [now right | split; [exact Hrange|]].
        now apply category_chart_data_defined.
Qed.


Lemma sum_stock_zero_nonneg (ps : list Product) :
  (forall p, In p ps -> 0 <= stock_level p) ->
  sum_stock ps = 0 -> forall p, In p ps -> stock_level p = 0.
Proof.
  induction ps as [|q ps IH]; intros Hpos Hz p Hp; [destruct Hp|].
  simpl in Hz.
  assert (Hq : 0 <= stock_level q) by (apply Hpos; now left).
  assert (Hrest : 0 <= sum_stock ps).
  { clear -Hpos. induction ps as [|r ps IH]; simpl; [lia|].
    assert (0 <= stock_level r) by (apply Hpos; right; now left).
    assert (0 <= sum_stock ps); [|lia].
    apply IH. intros x [-> | Hx]; apply Hpos; [now left | right; now right]. }
  destruct Hp as [<- | Hp]; [lia|].
  apply IH; auto; [|lia]. intros x Hx. apply Hpos. now right.
Qed.

Lemma all_out_of_stock_iff (ps : list Product) :
  out_of_stock_items ps = List.length ps
  <-> forall p, In p ps -> stock_level p = 0.
Proof.
  unfold out_of_stock_items. induction ps as [|q ps IH]; simpl.
  - split; [intros _ p [] | reflexivity].
  - pose proof (filter_length_le is_out_of_stock ps) as Hle.
    destruct (is_out_of_stock q) eqn:Hq; simpl.
    + apply is_out_of_stock_iff in Hq. split.
      * intros H p [<- | Hp]; [exact Hq | apply IH; [lia | exact Hp]].
      * intros H. f_equal. apply IH. intros p Hp. apply H. now right.
    + split; [lia|]. intros H.
      assert (is_out_of_stock q = true)
        by (apply is_out_of_stock_iff, H; now left).
      congruence.
Qed.

(** With a total of 1 and a category holding [10^310], the division of the
    first entry is too large for a float. *)
Example mixed_signs_overflow :
  total_products_in_stock (values (products mixed_sign_data)) = 1
  /\ get_dashboard_summary mixed_sign_data = Raise OverflowError.
Proof. split; vm_compute; reflexivity. Qed.

(** X6.  With stock levels that are not negative, the endpoint raises
    [ZeroDivisionError] exactly when the locations cover the products, there
    is a product, and every product is out of stock. *)
Theorem zero_division_iff_all_out_of_stock (data : Data) :
  (forall p, In p (values (products data)) -> 0 <= stock_level p) ->
  get_dashboard_summary data = Raise ZeroDivisionError
  <-> locations_cover data
      /\ values (products data) <> []
      /\ out_of_stock_items (values (products data))
         = List.length (values (products data)).
Proof.
  intros Hpos. rewrite all_out_of_stock_iff. split.
  - unfold get_dashboard_summary.
    destruct (location_chart_data (locations data) (values (products data)))
      as [lc|e] eqn:Hl; simpl.
    + pose proof (location_chart_data_ok_cover data lc Hl) as Hcover.
      destruct (category_chart_data_cases (values (products data)))
        as [(Hne & Hz & _) | [(_ & _ & ->) | (_ & _ & cc & ->)]]; cbn [bind];
        [intros _ | discriminate ..].
      repeat split; auto. apply sum_stock_zero_nonneg; auto.
      now rewrite <- total_products_in_stock_sum.
    + apply location_chart_data_raise_inv in Hl.
      destruct Hl as (p & _ & _ & ->). discriminate.
  - intros (Hc & Hne & Hz). now apply summary_all_out_of_stock.
Qed.

Lemma zero_division_iff_all_out_of_stock_witness :
  (forall p, In p (values (products sold_out_data)) -> 0 <= stock_level p)
  /\ get_dashboard_summary sold_out_data = Raise ZeroDivisionError.
Proof.
  assert (Hpos : forall p, In p (values (products sold_out_data)) ->
                           0 <= stock_level p).
  { intros p [<- | []]. simpl. lia. }
  split; [exact Hpos|].
  apply (proj2 (zero_division_iff_all_out_of_stock sold_out_data Hpos)).
  split; [|split; [discriminate | reflexivity]].
  intros p [<- | []]. discriminate.
Defined.

(** ** The counters *)

Lemma filter_length_disjoint {A : Type} (f g : A -> bool) (l : list A) :
  (forall x, f x && g x = false) ->
  (List.length (filter f l) + List.length (filter g l)
   = List.length (filter (fun x => f x || g x) l))%nat.
Proof.
  intros Hd. induction l as [|x l IH]; simpl; [reflexivity|].
  specialize (Hd x). destruct (f x), (g x); simpl in *; try discriminate; lia.
Qed.

Lemma filter_filter_implied {A : Type} (f g : A -> bool) (l : list A) :
  (forall x, f x = true -> g x = true) ->
  filter f (filter g l) = filter f l.
Proof.
  intros Himp. rewrite filter_filter. apply filter_ext. intros x.
  specialize (Himp x). destruct (f x).
  - now rewrite Himp.
  - apply andb_false_r.
Qed.

Lemma stock_classes (p : Product) :
  is_low_stock p && is_out_of_stock p = false
  /\ is_low_stock p || is_out_of_stock p = at_most_threshold p.
Proof.
  unfold is_low_stock, is_out_of_stock, at_most_threshold, LOW_STOCK_THRESHOLD.
  destruct (Z.gtb_spec (stock_level p) 0), (Z.leb_spec (stock_level p) 20),
    (Z.eqb_spec (stock_level p) 0), (Z.leb_spec 0 (stock_level p));
    simpl; split; try reflexivity; lia.
Qed.

(** X7.  No product is counted both as low stock and as out of stock: the
    two counters add up to the number of products whose stock level is from
    0 to 20, which is at most the number of products. *)
Theorem stock_counters_disjoint (ps : list Product) :
  (low_stock_items ps + out_of_stock_items ps
   = List.length (filter at_most_threshold ps))%nat
  /\ (low_stock_items ps + out_of_stock_items ps <= List.length ps)%nat.
Proof.
  assert (H : (low_stock_items ps + out_of_stock_items ps
               = List.length (filter at_most_threshold ps))%nat).
  { unfold low_stock_items, out_of_stock_items.
    rewrite filter_length_disjoint by (intros p; apply stock_classes).
    f_equal. apply filter_ext. intros p. apply stock_classes. }
  split; [exact H|]. rewrite H. apply filter_length_le.
Qed.

Lemma pending_classes (d : Document) :
  is_pending_receipt d && is_pending_delivery d = false
  /\ (is_pending_receipt d || is_pending_delivery d) && is_transfer_scheduled d
     = false
  /\ (is_pending_receipt d || is_pending_delivery d || is_transfer_scheduled d)
     && is_adjustment_pending d = false.
Proof.
  unfold is_pending_receipt, is_pending_delivery, is_transfer_scheduled,
    is_adjustment_pending.
  destruct (String.eqb_spec (type d) "Receipt") as [-> | _];
    destruct (String.eqb_spec (type d) "Delivery") as [E | _];
    destruct (String.eqb_spec (type d) "Internal") as [E' | _];
    destruct (String.eqb_spec (type d) "Adjustment") as [E'' | _];
    try discriminate; try (rewrite E in *; discriminate);
    try (rewrite E' in *; discriminate);
    simpl; rewrite ?andb_false_r, ?orb_false_r; auto.
Qed.

Lemma pending_not_done (d : Document) :
  is_pending d = true -> not_done d = true.
Proof.
  unfold is_pending, is_pending_receipt, is_pending_delivery,
    is_transfer_scheduled, is_adjustment_pending, not_done.
  destruct (String.eqb_spec (status d) "Done") as [-> | _]; [|reflexivity].
  simpl. rewrite !andb_false_r. discriminate.
Qed.

(** X8.  No document is counted by two of the four counters of pending
    documents, so the four add up to at most the number of documents; and a
    document whose status is Done is counted by none: without the Done
    documents every counter is the same. *)
Theorem pending_counters_disjoint (docs : list Document) :
  (pending_receipts docs + pending_deliveries docs + transfers_scheduled docs
   + adjustments_pending docs
   = List.length (filter is_pending docs))%nat
  /\ (pending_receipts docs + pending_deliveries docs
      + transfers_scheduled docs + adjustments_pending docs
      <= List.length docs)%nat
  /\ pending_receipts (filter not_done docs) = pending_receipts docs
  /\ pending_deliveries (filter not_done docs) = pending_deliveries docs
  /\ transfers_scheduled (filter not_done docs) = transfers_scheduled docs
  /\ adjustments_pending (filter not_done docs) = adjustments_pending docs.
Proof.
  assert (H : (pending_receipts docs + pending_deliveries docs
               + transfers_scheduled docs + adjustments_pending docs
               = List.length (filter is_pending docs))%nat).
  { unfold pending_receipts, pending_deliveries, transfers_scheduled,
      adjustments_pending.
    rewrite !filter_length_disjoint; try (intros d; apply pending_classes).
    reflexivity. }
  split; [exact H | split; [rewrite H; apply filter_length_le|]].
  unfold pending_receipts, pending_deliveries, transfers_scheduled,
    adjustments_pending.
  repeat split; f_equal; apply filter_filter_implied; intros d Hd;
    apply pending_not_done; unfold is_pending; rewrite Hd;
    rewrite ?orb_true_r; reflexivity.
Qed.

(** ** The order of the snapshot *)

Lemma filter_perm {A : Type} (f : A -> bool) (l l' : list A) :
  Permutation l l' -> Permutation (filter f l) (filter f l').
Proof.
  induction 1 as [|x l l' _ IH|x y l|l l' l'' _ IH1 _ IH2]; simpl.
  - constructor.
  - destruct (f x); [now constructor | exact IH].
  - destruct (f x), (f y); try reflexivity. apply perm_swap.
  - now transitivity (filter f l').
Qed.

Lemma sum_stock_perm (ps ps' : list Product) :
  Permutation ps ps' -> sum_stock ps = sum_stock ps'.
Proof.
  induction 1 as [|x l l' _ IH|x y l|l l' l'' _ IH1 _ IH2]; simpl; lia.
Qed.

Lemma existsb_perm {A : Type} (f : A -> bool) (l l' : list A) :
  Permutation l l' -> existsb f l = existsb f l'.
Proof.
  induction 1 as [|x l l' _ IH|x y l|l l' l'' _ IH1 _ IH2]; simpl.
  - reflexivity.
  - now rewrite IH.
  - destruct (f x), (f y); reflexivity.
  - congruence.
Qed.

Lemma grouped_get_perm (key : Product -> string) (ps ps' : list Product) (k : string) :
  Permutation ps ps' ->
  dict_get (fold_left (add_stock key) ps []) k
  = dict_get (fold_left (add_stock key) ps' []) k.
Proof.
  intros Hp. rewrite !grouped_get.
  rewrite (existsb_perm _ _ _ Hp). unfold stock_of.
  now rewrite (sum_stock_perm _ _ (filter_perm _ _ _ Hp)).
Qed.

(** X9.  The figures do not depend on the order in which the snapshot lists
    its products: for two orders of the same products the total, the two
    stock counters and the stock held under every category and under every
    location id are the same.  Only the order of the chart entries can
    differ. *)
Theorem kpis_order_independent (ps ps' : list Product) :
  Permutation ps ps' ->
  total_products_in_stock ps = total_products_in_stock ps'
  /\ low_stock_items ps = low_stock_items ps'
  /\ out_of_stock_items ps = out_of_stock_items ps'
  /\ (forall c, dict_get (category_counts ps) c = dict_get (category_counts ps') c)
  /\ (forall l, dict_get (location_stock ps) l = dict_get (location_stock ps') l).
Proof.
  intros Hp. repeat apply conj.
  - rewrite !total_products_in_stock_sum. now apply sum_stock_perm.
  - apply Permutation_length. now apply filter_perm.
  - apply Permutation_length. now apply filter_perm.
  - intros c. now apply grouped_get_perm.
  - intros l. now apply grouped_get_perm.
Qed.

Lemma kpis_order_independent_witness :
  Permutation (values (products sample_data)) (rev (values (products sample_data)))
  /\ total_products_in_stock (rev (values (products sample_data))) = 1170
  /\ keys (category_counts (rev (values (products sample_data))))
     = ["Home Goods"; "Apparel"; "Components"; "Peripherals"; "Electronics"].
Proof.
  assert (Hp : Permutation (values (products sample_data))
                           (rev (values (products sample_data))))
    by apply Permutation_rev.
  split; [exact Hp | split; [|reflexivity]].
  rewrite <- (proj1 (kpis_order_independent _ _ Hp)). reflexivity.
Defined.

(** * Further properties of the document filter *)

Lemma filter_documents_object (data : Data) (filters : dict json) :
  filter_documents data (JObj filters)
  = Ok {| count := List.length (filter (keeps filters) (values (documents data)));
          response_documents :=
            firstn 15 (sort_reverse created_at
                         (filter (keeps filters) (values (documents data)))) |}.
Proof.
  unfold filter_documents. rewrite filtered_docs_keeps. simpl.
  now rewrite sort_reverse_length.
Qed.

Lemma filter_documents_fields (data : Data) (filters : dict json) (r : Response) :
  filter_documents data (JObj filters) = Ok r ->
  count r = List.length (filter (keeps filters) (values (documents data)))
  /\ response_documents r
     = firstn 15 (sort_reverse created_at
                    (filter (keeps filters) (values (documents data)))).
Proof.
  rewrite filter_documents_object. intros H. injection H as <-.
  split; reflexivity.
Qed.

(** X10.  The endpoint answers exactly on a request body that is a JSON
    object; on any other body ([null], a list, a string, a number, a
    boolean) it raises [AttributeError], whatever the documents. *)
Theorem filter_answers_iff_object (data : Data) (filters : json) :
  ((exists o, filters = JObj o) /\ exists r, filter_documents data filters = Ok r)
  \/ ((forall o, filters <> JObj o)
      /\ filter_documents data filters = Raise AttributeError).
Proof.
  destruct filters as [| | | | |o];
    try (right; split; [discriminate | reflexivity]).
  left. split; [eauto|]. rewrite filter_documents_object. eauto.
Qed.

Lemma keeps_agree (o o' : dict json) (d : Document) :
  (forall key, recognised key -> dict_get o key = dict_get o' key) ->
  keeps o d = keeps o' d.
Proof.
  intros H. unfold keeps, dict_get_default.
  rewrite !(H "document_type"), !(H "status"), !(H "location"),
    !(H "category"); unfold recognised; auto.
Qed.

(** X11.  Only the four recognised keys of the filter spec are read: two
    specs that hold the same under these four keys get the same answer,
    whatever else they hold. *)
Theorem unrecognised_keys_ignored (data : Data) (o o' : dict json) :
  (forall key, recognised key -> dict_get o key = dict_get o' key) ->
  filter_documents data (JObj o) = filter_documents data (JObj o').
Proof.
  intros H. rewrite !filter_documents_object.
  rewrite (filter_ext (keeps o) (keeps o'));
    [reflexivity | intros d; now apply keeps_agree].
Qed.

Lemma unrecognised_keys_ignored_witness :
  let o := [("status", JList [JStr "Ready"])] in
  let o' := [("page", JNum 2 1); ("status", JList [JStr "Ready"]);
             ("sort", JStr "id")] in
  (forall key, recognised key -> dict_get o key = dict_get o' key)
  /\ filter_documents sample_data (JObj o) = filter_documents sample_data (JObj o').
Proof.
  intros o o'.
  assert (H : forall key, recognised key -> dict_get o key = dict_get o' key).
  { intros key [-> | [-> | [-> | ->]]]; reflexivity. }
  split; [exact H | exact (unrecognised_keys_ignored sample_data o o' H)].
Defined.

(** X12.  A spec whose four recognised fields are all absent, null, empty or
    not a list matches every document: the count is the number of documents
    of the snapshot, and the answer holds the 15 most recent of them. *)
Theorem unconstrained_spec_matches_all (data : Data) (filters : dict json) :
  (forall key, recognised key -> unconstrained filters key) ->
  filter_documents data (JObj filters)
  = Ok {| count := List.length (values (documents data));
          response_documents :=
            firstn 15 (sort_reverse created_at (values (documents data))) |}.
Proof.
  intros H. rewrite filter_documents_object.
  assert (Hall : filter (keeps filters) (values (documents data))
                 = values (documents data)).
  { apply filter_fixpoint, Forall_forall. intros d _. unfold keeps.
    assert (Hk : forall key, recognised key ->
                   filter_active (dict_get_default filters key JNull) = false).
    { intros key Hr. apply unconstrained_inactive, H, Hr. }
    destruct (inactive_keeps _ d (Hk "document_type" (or_introl eq_refl)))
      as (-> & _).
    destruct (inactive_keeps _ d (Hk "status" (or_intror (or_introl eq_refl))))
      as (_ & -> & _).
    destruct (inactive_keeps _ d
                (Hk "location" (or_intror (or_intror (or_introl eq_refl)))))
      as (_ & _ & -> & _).
    destruct (inactive_keeps _ d
                (Hk "category" (or_intror (or_intror (or_intror eq_refl)))))
      as (_ & _ & _ & ->).
    reflexivity. }
  now rewrite Hall.
Qed.

Lemma unconstrained_spec_matches_all_witness :
  let filters := [("status", JStr "Ready"); ("category", JList []);
                  ("location", JNull)] in
  (forall key, recognised key -> unconstrained filters key)
  /\ exists r, filter_documents sample_data (JObj filters) = Ok r
               /\ count r = 4%nat.
Proof.
  intros filters.
  assert (H : forall key, recognised key -> unconstrained filters key).
  { intros key [-> | [-> | [-> | ->]]].
    - left. reflexivity.
    - right; right; right. exists (JStr "Ready"). split; reflexivity.
    - right; left. reflexivity.
    - right; right; left. exists (JList []). split; reflexivity. }
  split; [exact H|].
  eexists. split; [exact (unconstrained_spec_matches_all sample_data filters H)|].
  reflexivity.
Defined.

(** X13.  The four passes commute: run in the reverse order, category,
    location, status, type, they keep the same documents in the same order;
    so do the type and the status pass when swapped. *)
Theorem passes_commute (t s l c : json) (docs : list Document) :
  filter_by_type t (filter_by_status s (filter_by_location l
     (filter_by_category c docs)))
  = filter_by_category c (filter_by_location l (filter_by_status s
       (filter_by_type t docs)))
  /\ filter_by_type t (filter_by_status s docs)
     = filter_by_status s (filter_by_type t docs).
Proof.
  rewrite !filter_by_type_keeps, !filter_by_status_keeps,
    !filter_by_location_keeps, !filter_by_category_keeps, !filter_filter.
  split; apply filter_ext; intros d;
    destruct (keeps_type t d), (keeps_status s d), (keeps_location l d),
      (keeps_category c d); reflexivity.
Qed.

(** ** What the answer holds *)

Lemma in_firstn {A : Type} (n : nat) (l : list A) (x : A) :
  In x (firstn n l) -> In x l.
Proof.
  intros H. rewrite <- (firstn_skipn n l). apply in_or_app. now left.
Qed.

(** X14.  Every document of the answer is a document of the snapshot that
    satisfies the spec; the answer holds at most 15 documents and no more
    than [count], and [count] is at most the number of documents of the
    snapshot. *)
Theorem response_within_snapshot (data : Data) (filters : dict json) (r : Response) :
  filter_documents data (JObj filters) = Ok r ->
  Forall (fun d => In d (values (documents data)) /\ survives filters d)
         (response_documents r)
  /\ (List.length (response_documents r) <= 15)%nat
  /\ (List.length (response_documents r) <= count r)%nat
  /\ (count r <= List.length (values (documents data)))%nat.
Proof.
  intros Hr. apply filter_documents_fields in Hr. destruct Hr as [-> ->]. repeat apply conj.
  - apply Forall_forall. intros d Hd. apply in_firstn in Hd.
    apply (Permutation_in _ (sort_reverse_perm created_at _)) in Hd.
    apply filter_In in Hd. now rewrite <- keeps_survives.
  - apply firstn_le_length.
  - rewrite length_firstn, sort_reverse_length. apply Nat.le_min_r.
  - apply filter_length_le.
Qed.

Lemma response_within_snapshot_witness :
  exists r, filter_documents sample_data
              (JObj [("status", JList [JStr "Waiting"; JStr "Ready"])]) = Ok r
            /\ (List.length (response_documents r) <= count r)%nat
            /\ (count r <= 4)%nat.
Proof.
  eexists. split; [reflexivity|].
  destruct (response_within_snapshot sample_data
              [("status", JList [JStr "Waiting"; JStr "Ready"])] _ eq_refl)
    as (_ & _ & H1 & H2).
  split; [exact H1 | exact H2].
Defined.

Lemma sorted_split {A : Type} (R : A -> A -> Prop) (n : nat) (l : list A) :
  StronglySorted R l ->
  forall x y, In x (firstn n l) -> In y (skipn n l) -> R x y.
Proof.
  intros Hs. revert n. induction Hs as [|a l Hs IH Ha]; intros n x y Hx Hy.
  - destruct n; destruct Hx.
  - destruct n as [|n]; [destruct Hx|]. simpl in Hx, Hy.
    destruct Hx as [<- | Hx].
    + rewrite Forall_forall in Ha. apply Ha.
      rewrite <- (firstn_skipn n l). apply in_or_app. now right.
    + now apply (IH n).
Qed.

(** X15.  Truncation drops the oldest: the matched documents are those of the
    answer together with [count - 15] others, and none of these others was
    created after a document of the answer. *)
Theorem answer_holds_most_recent (data : Data) (filters : dict json) (r : Response) :
  filter_documents data (JObj filters) = Ok r ->
  exists rest,
    Permutation (response_documents r ++ rest)
                (filter (keeps filters) (values (documents data)))
    /\ List.length rest = (count r - 15)%nat
    /\ forall d d', In d (response_documents r) -> In d' rest ->
                    str_ltb (created_at d) (created_at d') = false.
Proof.
  intros Hr. apply filter_documents_fields in Hr. destruct Hr as [-> ->].
  set (matched := filter (keeps filters) (values (documents data))).
  exists (skipn 15 (sort_reverse created_at matched)). repeat apply conj.
  - rewrite firstn_skipn. apply sort_reverse_perm.
  - now rewrite length_skipn, sort_reverse_length.
  - intros d d'.
    exact (sorted_split (not_before created_at) 15 _
             (sort_reverse_sorted created_at matched) d d').
Qed.

Lemma answer_holds_most_recent_witness :
  exists r rest,
    filter_documents twenty_data (JObj []) = Ok r
    /\ List.length rest = 5%nat
    /\ forall d d', In d (response_documents r) -> In d' rest ->
                    str_ltb (created_at d) (created_at d') = false.
Proof.
  eexists.
  destruct (answer_holds_most_recent twenty_data [] _ eq_refl)
    as (rest & _ & Hlen & Hold).
  exists rest. split; [reflexivity | split; [exact Hlen | exact Hold]].
Defined.

(** ** Lists that hold no string *)

Lemma str_in_no_string (s : string) (l : list json) :
  (forall t, ~ In (JStr t) l) -> str_in s (JList l) = false.
Proof.
  intros H. destruct (str_in s (JList l)) eqn:E; [|reflexivity].
  apply str_in_iff in E. now destruct (H s).
Qed.

Lemma filter_none {A : Type} (f : A -> bool) (l : list A) :
  (forall x, f x = false) -> filter f l = [].
Proof.
  intros H. induction l as [|x l IH]; simpl; [reflexivity|]. now rewrite H.
Qed.

Lemma filter_active_list (l : list json) :
  l <> [] -> filter_active (JList l) = true.
Proof. intros H. apply filter_active_iff. eauto. Qed.

(** X16.  A non-empty list without a string in it is not taken for a missing
    filter: under [document_type], [status] or [category] it matches no
    document at all, and under [location] as well unless it holds a
    null. *)
Theorem list_without_strings_matches_nothing (l : list json) (docs : list Document) :
  l <> [] ->
  (forall s, ~ In (JStr s) l) ->
  filter_by_type (JList l) docs = []
  /\ filter_by_status (JList l) docs = []
  /\ filter_by_category (JList l) docs = []
  /\ (~ In JNull l -> filter_by_location (JList l) docs = []).
Proof.
  intros Hne Hno.
  unfold filter_by_type, filter_by_status, filter_by_category,
    filter_by_location.
  rewrite (filter_active_list l Hne). repeat apply conj.
  - apply filter_none. intros d. now apply str_in_no_string.
  - apply filter_none. intros d. now apply str_in_no_string.
  - apply filter_none. intros d.
    induction (category_list_or_empty d) as [|c cs IH]; [reflexivity|].
    cbn [existsb]. rewrite IH. now rewrite str_in_no_string.
  - intros Hnull. apply filter_none. intros d.
    assert (H : forall o, opt_str_in o (JList l) = false).
    { intros o. destruct (opt_str_in o (JList l)) eqn:E; [|reflexivity].
      apply opt_str_in_iff in E. destruct o as [s|]; simpl in E.
      - now destruct (Hno s).
      - contradiction. }
    now rewrite !H.
Qed.

Lemma list_without_strings_matches_nothing_witness :
  [JNum 1 1; JBool true] <> []
  /\ (forall s, ~ In (JStr s) [JNum 1 1; JBool true])
  /\ exists r, filter_documents sample_data
                 (JObj [("document_type", JList [JNum 1 1; JBool true])]) = Ok r
               /\ count r = 0%nat
               /\ filter_by_type (JList [JNum 1 1; JBool true])
                    (values (documents sample_data)) = [].
Proof.
  assert (H1 : [JNum 1 1; JBool true] <> []) by discriminate.
  assert (H2 : forall s, ~ In (JStr s) [JNum 1 1; JBool true]).
  { intros s [H | [H | []]]; discriminate H. }
  split; [exact H1 | split; [exact H2|]].
  eexists. split; [reflexivity | split; [reflexivity|]].
  exact (proj1 (list_without_strings_matches_nothing _
                  (values (documents sample_data)) H1 H2)).
Defined.

(** X17.  When the category filter is active, a document without
    [category_list], or with an empty one, is dropped. *)
Theorem category_filter_needs_categories
  (l : list json) (docs : list Document) (d : Document) :
  l <> [] ->
  category_list d = None \/ category_list d = Some [] ->
  ~ In d (filter_by_category (JList l) docs).
Proof.
  intros Hne Hcat Hin. unfold filter_by_category in Hin.
  rewrite (filter_active_list l Hne) in Hin. apply filter_In in Hin.
  destruct Hin as [_ Hex]. unfold category_list_or_empty in Hex.
  destruct Hcat as [E | E]; rewrite E in Hex; discriminate Hex.
Qed.

Lemma category_filter_needs_categories_witness :
  let d := document_at "X001" "Receipt" "Ready" "2025-01-01T10:00:00" in
  [JStr "Apparel"] <> []
  /\ (category_list d = None \/ category_list d = Some [])
  /\ ~ In d (filter_by_category (JList [JStr "Apparel"])
               (d :: values (documents sample_data))).
Proof.
  intros d.
  assert (H1 : [JStr "Apparel"] <> []) by discriminate.
  assert (H2 : category_list d = None \/ category_list d = Some [])
    by (left; reflexivity).
  split; [exact H1 | split; [exact H2|]].
  exact (category_filter_needs_categories _ _ d H1 H2).
Defined.

(** ** Filtering the answer again *)

Lemma sort_reverse_sorted_id {A : Type} (key : A -> string) (l : list A) :
  StronglySorted (not_before key) l -> sort_reverse key l = l.
Proof.
  induction 1 as [|x l Hs IH Hx]; [reflexivity|].
  cbn [sort_reverse fold_right]. fold (sort_reverse key l). rewrite IH.
  destruct l as [|y l']; [reflexivity|]. simpl.
  inversion Hx as [|? ? Hxy _]; subst. unfold not_before in Hxy.
  now rewrite Hxy.
Qed.

Lemma sorted_firstn {A : Type} (R : A -> A -> Prop) (n : nat) (l : list A) :
  StronglySorted R l -> StronglySorted R (firstn n l).
Proof.
  intros Hs. revert n. induction Hs as [|x l Hs IH Hx]; intros [|n]; simpl;
    try constructor.
  - apply IH.
  - apply Forall_forall. intros y Hy. rewrite Forall_forall in Hx.
    apply Hx. now apply in_firstn in Hy.
Qed.

(** X18.  The answer is a fixed point of the endpoint: on a snapshot whose
    documents are those of an answer, in its order, the same spec gives
    these documents back, all of them and in the same order. *)
Theorem answer_filtered_again
  (data data' : Data) (filters : dict json) (r : Response) :
  filter_documents data (JObj filters) = Ok r ->
  values (documents data') = response_documents r ->
  filter_documents data' (JObj filters)
  = Ok {| count := List.length (response_documents r);
          response_documents := response_documents r |}.
Proof.
  intros Hr Hdocs. apply filter_documents_fields in Hr. destruct Hr as [_ Hd].
  rewrite filter_documents_object, Hdocs, Hd.
  set (sorted := sort_reverse created_at
                   (filter (keeps filters) (values (documents data)))).
  assert (Hkeep : filter (keeps filters) (firstn 15 sorted) = firstn 15 sorted).
  { apply filter_fixpoint, Forall_forall. intros d Hin.
    apply in_firstn in Hin.
    apply (Permutation_in _ (sort_reverse_perm created_at _)) in Hin.
    now apply filter_In in Hin. }
  rewrite Hkeep.
  rewrite (sort_reverse_sorted_id created_at (firstn 15 sorted))
    by (apply sorted_firstn, sort_reverse_sorted).
  rewrite firstn_firstn. reflexivity.
Qed.

Lemma answer_filtered_again_witness :
  let filters := [("status", JList [JStr "Waiting"; JStr "Ready"])] in
  let data' := no_products (rev (firstn 2 (documents sample_data))) [] in
  exists r,
    filter_documents sample_data (JObj filters) = Ok r
    /\ values (documents data') = response_documents r
    /\ filter_documents data' (JObj filters) = Ok r.
Proof.
  intros filters data'. eexists.
  split; [reflexivity | split; [reflexivity|]].
  exact (answer_filtered_again sample_data data' filters _ eq_refl eq_refl).
Defined.

(** ** The location pass on any list *)

Lemma field_in_list (o : option string) (l : list json) :
  In (json_of_field o) l
  <-> (exists s, o = Some s /\ In (JStr s) l) \/ (o = None /\ In JNull l).
Proof.
  destruct o as [s|]; simpl; split.
  - eauto.
  - intros [(s' & [= <-] & H) | [[=] _]]. exact H.
  - auto.
  - intros [(s' & [=] & _) | [_ H]]. exact H.
Qed.

(** X20.  With any non-empty list in the location field, the location pass
    keeps a document exactly when one of its two location fields is a string
    of the list, or when the list holds a null and the document lacks one of
    the two fields. *)
Theorem location_pass_on_any_list
  (l : list json) (docs : list Document) (d : Document) :
  l <> [] ->
  In d (filter_by_location (JList l) docs)
  <-> In d docs
      /\ (has_location_in l d
          \/ (In JNull l
              /\ (source_location d = None \/ target_location d = None))).
Proof.
  intros Hne. rewrite filter_by_location_keeps, filter_In, keeps_location_iff.
  unfold satisfies_location, has_location_in.
  split; intros [Hd H]; (split; [exact Hd|]).
  - specialize (H l eq_refl Hne). rewrite !field_in_list in H.
    destruct H as [[(s & Hs & Hin) | [Hn Hin]] | [(s & Hs & Hin) | [Hn Hin]]];
      eauto 6.
  - intros l' [= <-] _. rewrite !field_in_list.
    destruct H as [(s & [Hs | Hs] & Hin) | [Hin [Hn | Hn]]]; eauto 6.
Qed.

Lemma location_pass_on_any_list_witness :
  let d := document_at "A004" "Adjustment" "Done" "2025-01-01T10:00:03" in
  [JNull; JStr "W002"] <> []
  /\ In d (filter_by_location (JList [JNull; JStr "W002"])
             (d :: values (documents sample_data))).
Proof.
  intros d.
  assert (H : [JNull; JStr "W002"] <> []) by discriminate.
  split; [exact H|].
  apply (proj2 (location_pass_on_any_list _ (d :: values (documents sample_data))
                  d H)).
  split; [now left|]. right. split; [now left | now left].
Defined.

(** * [generate_id] *)

Lemma upper_ascii_hex (c : ascii) :
  is_lower_hex c = true -> is_upper_hex (upper_ascii c) = true.
Proof.
  destruct c as [[] [] [] [] [] [] [] []]; vm_compute; congruence.
Qed.

Lemma str_upper_length (s : string) :
  String.length (str_upper s) = String.length s.
Proof. induction s as [|c s IH]; simpl; [|rewrite IH]; reflexivity. Qed.

Lemma substring_0_length (n : nat) (s : string) :
  (n <= String.length s)%nat -> String.length (substring 0 n s) = n.
Proof.
  revert s. induction n as [|n IH]; intros s Hn.
  - destruct s; reflexivity.
  - destruct s as [|c s]; simpl in *; [lia|]. rewrite IH; [reflexivity | lia].
Qed.

Lemma str_upper_hex (s : string) :
  str_forallb is_lower_hex s = true ->
  str_forallb is_upper_hex (str_upper s) = true.
Proof.
  induction s as [|c s IH]; simpl; [reflexivity|].
  rewrite !andb_true_iff. intros [Hc Hs]. split; [|now apply IH].
  now apply upper_ascii_hex.
Qed.

(** X19.  From the string of a UUID, whose first eight characters are
    hexadecimal digits in lower case, [generate_id] makes an id of exactly
    eight characters, each a digit or a letter from A to F in upper case. *)
Theorem generate_id_format (uuid4 : string) :
  (8 <= String.length uuid4)%nat ->
  str_forallb is_lower_hex (substring 0 8 uuid4) = true ->
  String.length (generate_id uuid4) = 8%nat
  /\ str_forallb is_upper_hex (generate_id uuid4) = true.
Proof.
  intros Hlen Hhex. unfold generate_id. split.
  - rewrite str_upper_length. now apply substring_0_length.
  - now apply str_upper_hex.
Qed.

Lemma generate_id_format_witness :
  (8 <= String.length "3f2a9c1e-7b4d-4e2a-9f61-0c5d8e7a1b23")%nat
  /\ generate_id "3f2a9c1e-7b4d-4e2a-9f61-0c5d8e7a1b23" = "3F2A9C1E"
  /\ String.length (generate_id "3f2a9c1e-7b4d-4e2a-9f61-0c5d8e7a1b23") = 8%nat.
Proof.
  assert (H : (8 <= String.length "3f2a9c1e-7b4d-4e2a-9f61-0c5d8e7a1b23")%nat)
    by (simpl; lia).
  split; [exact H | split; [reflexivity|]].
  exact (proj1 (generate_id_format _ H eq_refl)).
Defined.
